(** * Vercel -> Cloudflare Pages migration script: embedding and properties

    Shallow embedding of [migrate_vercel_to_cloudflare.py].  The script
    handles every platform answer as an untyped JSON value, so the model
    does the same: a [json] type, Python's truthiness, [dict.get],
    membership and iteration, with the exceptions Python raises on values of
    the wrong shape.  Network calls go through an abstract [send], and
    [print] appends to an output log. *)

From Stdlib Require Import List String Ascii ZArith Bool Lia.
Import ListNotations.
Local Open Scope string_scope.
Local Open Scope Z_scope.
#[local] Set Warnings "-register-all".

(** ** JSON values, as [response.json()] delivers them

    Objects are association lists: [dict.get] reads the first binding of a
    key, item assignment replaces that binding or appends a new one (Python
    dicts keep insertion order).  Numbers are integers; the script never
    computes with them. *)

Inductive json : Type :=
| JNull
| JBool (b : bool)
| JNum (z : Z)
| JStr (s : string)
| JArr (items : list json)
| JObj (fields : list (string * json)).

(** Exceptions of the script that no handler catches.
    [requests.exceptions.RequestException] is always caught where it is
    raised and is modelled by [fetch_error] below. *)
Inductive exn : Type := AttributeError | TypeError | UnboundLocalError.

(** Result of running a piece of Python: a value, an uncaught exception, or
    a [while] loop that was cut off by the fuel of the model. *)
Inductive res (A : Type) : Type :=
| Ok (a : A)
| Raise (e : exn)
| OutOfFuel.
Arguments Ok {A} a.
Arguments Raise {A} e.
Arguments OutOfFuel {A}.

Definition rbind {A B} (r : res A) (k : A -> res B) : res B :=
  match r with
  | Ok a => k a
  | Raise e => Raise e
  | OutOfFuel => OutOfFuel
  end.

Declare Scope res_scope.
Delimit Scope res_scope with res.
Notation "'let?' x ':=' c 'in' k" := (rbind c (fun x => k))
  (at level 10, x pattern, c at level 100, k at level 200) : res_scope.

(** *** Python primitives on JSON values *)

(** [bool(x)]: the test behind [if x], [not x] and [x or y]. *)
Definition truthy (j : json) : bool :=
  match j with
  | JNull => false
  | JBool b => b
  | JNum z => negb (z =? 0)
  | JStr s => negb (s =? "")%string
  | JArr l => match l with [] => false | _ => true end
  | JObj l => match l with [] => false | _ => true end
  end.

(** [x or y]. *)
Definition py_or (x y : json) : json := if truthy x then x else y.

Section Assoc.
Context {K V : Type} (eqb : K -> K -> bool).

Fixpoint assoc_get (l : list (K * V)) (k : K) : option V :=
  match l with
  | [] => None
  | (k', v) :: rest => if eqb k' k then Some v else assoc_get rest k
  end.

(** [d[k] = v]: overwrite in place, or append. *)
Fixpoint assoc_set (l : list (K * V)) (k : K) (v : V) : list (K * V) :=
  match l with
  | [] => [(k, v)]
  | (k', v') :: rest =>
      if eqb k' k then (k', v) :: rest else (k', v') :: assoc_set rest k v
  end.
End Assoc.

(** [d.get(k, default)] on a value already known to be a dict. *)
Definition fields_get (fs : list (string * json)) (k : string) (default : json) : json :=
  match assoc_get String.eqb fs k with
  | Some v => v
  | None => default
  end.

(** [x.get(k, default)]: only dicts have [get]. *)
Definition py_get (x : json) (k : string) (default : json) : res json :=
  match x with
  | JObj fs => Ok (fields_get fs k default)
  | _ => Raise AttributeError
  end.

(** [x == s] for a string literal [s]. *)
Definition eq_str (x : json) (s : string) : bool :=
  match x with
  | JStr t => (t =? s)%string
  | _ => false
  end.

Fixpoint substringb (needle hay : string) : bool :=
  match hay with
  | EmptyString => prefix needle EmptyString
  | String _ rest => prefix needle hay || substringb needle rest
  end.

(** [s in x] for a string literal [s]: element of a list, substring of a
    string, key of a dict; other values are not containers. *)
Definition py_in (s : string) (x : json) : res bool :=
  match x with
  | JArr l => Ok (existsb (fun e => eq_str e s) l)
  | JStr t => Ok (substringb s t)
  | JObj fs => Ok (existsb (fun kv => (fst kv =? s)%string) fs)
  | _ => Raise TypeError
  end.

Fixpoint chars (s : string) : list json :=
  match s with
  | EmptyString => []
  | String c rest => JStr (String c EmptyString) :: chars rest
  end.

(** [iter(x)], as used by [for v in x] and [list.extend(x)]. *)
Definition py_iter (x : json) : res (list json) :=
  match x with
  | JArr l => Ok l
  | JStr t => Ok (chars t)
  | JObj fs => Ok (map (fun kv => JStr (fst kv)) fs)
  | _ => Raise TypeError
  end.

(** Keys of the environment dicts.  [True] and [1] are the same key in
    Python, lists and dicts are unhashable. *)
Inductive pykey : Type := KNone | KInt (z : Z) | KStr (s : string).

Definition pykey_eqb (a b : pykey) : bool :=
  match a, b with
  | KNone, KNone => true
  | KInt x, KInt y => x =? y
  | KStr x, KStr y => (x =? y)%string
  | _, _ => false
  end.

Definition py_hash (x : json) : res pykey :=
  match x with
  | JNull => Ok KNone
  | JBool b => Ok (KInt (if b then 1 else 0))
  | JNum z => Ok (KInt z)
  | JStr s => Ok (KStr s)
  | JArr _ | JObj _ => Raise TypeError
  end.

Definition pydict : Type := list (pykey * json).
Definition dict_get (d : pydict) (k : pykey) : option json := assoc_get pykey_eqb d k.
Definition dict_set (d : pydict) (k : pykey) (v : json) : pydict := assoc_set pykey_eqb d k v.

(** [d[k] = v] with [k] an arbitrary value. *)
Definition py_setitem (d : pydict) (k v : json) : res pydict :=
  (let? key := py_hash k in Ok (dict_set d key v))%res.

(** ** The creation payload (lines 111-117 and 151-173)

    The payload is a dict literal with fixed keys; each record below is one
    of its nested dicts, field for field. *)

Record build_config_t : Type := {
  build_command : json;
  output_dir : json;
  root_dir : json;
  web_analytics_tag : json;
  web_analytics_token : json
}.

Record source_config_t : Type := {
  owner : json;
  repo_name : json;
  config_production_branch : json;
  pr_comments_enabled : json;
  deployments_enabled : json
}.

Record source_t : Type := {
  source_type : json;
  config : source_config_t
}.

Record deployment_configs_t : Type := {
  preview_environment_variables : pydict;
  production_environment_variables : pydict
}.

Record payload_t : Type := {
  name : json;
  production_branch : json;
  build_config : build_config_t;
  source : source_t;
  deployment_configs : deployment_configs_t
}.

(** ** [create_cloudflare_pages_project], lines 91-173: from the aggregated
    details to the payload, before any request is made *)

(** Body of the loop of lines 124-140 for one variable; the state is the
    pair (environment_variables, preview_environment_variables). *)
Definition env_step (acc : pydict * pydict) (var : json) : res (pydict * pydict) :=
  (let? targets := py_get var "target" (JArr []) in
   let? var_name := py_get var "key" JNull in
   let? var_value := py_get var "value" JNull in
   let? var_type := py_get var "type" JNull in
   if truthy var_name && truthy var_value then
     let? in_prod := py_in "production" targets in
     let? prod := (if in_prod then py_setitem (fst acc) var_name var_value
                   else Ok (fst acc)) in
     let? in_prev := py_in "preview" targets in
     let? prev := (if in_prev then py_setitem (snd acc) var_name var_value
                   else Ok (snd acc)) in
     Ok (prod, prev)
   else Ok acc)%res.

Fixpoint env_loop (acc : pydict * pydict) (vars : list json) : res (pydict * pydict) :=
  match vars with
  | [] => Ok acc
  | var :: rest => (let? acc' := env_step acc var in env_loop acc' rest)%res
  end.

(** How lines 91-173 end: one of the two early [return None], each with
    its own message, or the payload that is then posted. *)
Inductive prepared : Type :=
| MissingName
| NotGithub (project_name : json)
| Ready (project_name : json) (payload : payload_t).

Definition prepare_payload (vercel_project_details : json) : res prepared :=
  (let? vercel_info := py_get vercel_project_details "info" (JObj []) in
   let? vercel_env_vars := py_get vercel_project_details "env_vars" (JArr []) in
   let? project_name := py_get vercel_info "name" JNull in
   if negb (truthy project_name) then Ok MissingName
   else
     let? repo_info := py_get vercel_info "link" JNull in
     let? build_settings := py_get vercel_info "build" (JObj []) in
     let? framework := py_get vercel_info "framework" JNull in
     let? build_command_v := py_get vercel_info "buildCommand" JNull in
     let? output_dir_v := py_get vercel_info "outputDirectory" JNull in
     let? root_directory := py_get vercel_info "rootDirectory" JNull in
     let bc := {| build_command := build_command_v;
                  output_dir := output_dir_v;
                  root_dir := py_or root_directory (JStr "/");
                  web_analytics_tag := JNull;
                  web_analytics_token := JNull |} in
     let? vars := py_iter vercel_env_vars in
     let? envs := env_loop ([], []) vars in
     let? not_github :=
       (if negb (truthy repo_info) then Ok true
        else let? ty := py_get repo_info "type" JNull in Ok (negb (eq_str ty "github"))) in
     if (not_github : bool) then Ok (NotGithub project_name)
     else
       let? branch := py_get vercel_info "productionBranch" JNull in
       let? org := py_get repo_info "org" JNull in
       let? repo := py_get repo_info "repo" JNull in
       let? branch' := py_get vercel_info "productionBranch" JNull in
       Ok (Ready project_name
             {| name := project_name;
                production_branch := py_or branch (JStr "main");
                build_config := bc;
                source := {| source_type := JStr "github";
                             config := {| owner := org;
                                          repo_name := repo;
                                          config_production_branch := py_or branch' (JStr "main");
                                          pr_comments_enabled := JBool true;
                                          deployments_enabled := JBool true |} |};
                deployment_configs :=
                  {| preview_environment_variables := snd envs;
                     production_environment_variables := fst envs |} |}))%res.

(** The condition of line 227 in [main]:
    [project_details.get('info', {}).get('link', {}).get('type') == 'github']. *)
Definition linked_via_github (project_details : json) : res bool :=
  (let? info := py_get project_details "info" (JObj []) in
   let? link := py_get info "link" (JObj []) in
   let? ty := py_get link "type" JNull in
   Ok (eq_str ty "github"))%res.

(** ** Requests, responses and printed messages *)

(** What [requests] hands back: a response object with its status, text and
    decoded JSON body ([None] when the body is not JSON), or no response at
    all because the call itself raised (connection refused, timeout, ...). *)
Record response : Type := {
  status_code : Z;
  text : string;
  body : option json
}.

Inductive http_result : Type :=
| ConnectionError
| Response (r : response).

(** The [url] variable of [get_vercel_projects]: the first page, or
    [f"{VERCEL_API_BASE}/v9/projects?until={next_page}"]. *)
Inductive page_url : Type :=
| FirstPage
| Until (next_page : json).

(** The five requests of the script, each with the values interpolated into
    its URL and headers. *)
Inductive request : Type :=
| GetProjects (api_token : string) (url : page_url)
| GetProject (api_token : string) (project_id : json)
| GetProjectEnv (api_token : string) (project_id : json)
| GetProjectDomains (api_token : string) (project_id : json)
| PostPagesProject (cf_api_token cf_account_id : string) (payload : payload_t).

(** The [RequestException] a [try] block can catch: raised by the call
    itself, by [raise_for_status] (status 400 to 599) or by
    [response.json()], whose [requests.exceptions.JSONDecodeError] is a
    [RequestException] too. *)
Inductive request_exception : Type :=
| ConnectionFailed
| HTTPError (status : Z)
| JSONDecodeError.

(** One constructor per [print] call of the script. *)
Inductive msg : Type :=
| ErrorFetchingProjects (e : request_exception)
| ResponseStatus (status : Z)
| ResponseText (t : string)
| ErrorFetchingInfo (project_id : json) (e : request_exception)
| ErrorFetchingEnvVars (project_id : json) (e : request_exception)
| ErrorFetchingDomains (project_id : json) (e : request_exception)
| SkippingMissingName
| SkippingNotGithub (project_name : json)
| PagesSupportsGitOrUpload
| ManualMigrationNeeded
| AttemptingToCreate (project_name : json)
| SuccessfullyCreated (created_name : json)
| Subdomain (subdomain : json)
| ErrorCreating (project_name : json) (e : request_exception)
| FetchingProjects
| FetchingSpecific (project_id : json)
| CouldNotFetchDetails (project_id : json)
| FailedOrNoProjects
| FoundProjects (n : nat)
| ProcessingProject (project_name project_id : json)
| SkippingMissingId
| SkippingUnsupportedLink (project_name : json)
| ManualMigrationMightBeRequired
| SkippingFetchFailed (project_name : json)
| MigrationFinished.

(** Outcome of the three statements every [try] block starts with:
    [response = requests.get(...)], [response.raise_for_status()],
    [response.json()].  On failure, [bound] is the response object the
    assignment bound before the exception, if it got that far. *)
Inductive fetched : Type :=
| Failed (e : request_exception) (bound : option response)
| Fetched (r : response) (data : json).

Definition classify (h : http_result) : fetched :=
  match h with
  | ConnectionError => Failed ConnectionFailed None
  | Response r =>
      if (400 <=? status_code r) && (status_code r <? 600)
      then Failed (HTTPError (status_code r)) (Some r)
      else match body r with
           | None => Failed JSONDecodeError (Some r)
           | Some data => Fetched r data
           end
  end.

(** ** The script, over an arbitrary network *)

Section Script.
(** The two platforms: a state and the answer it gives to each request. *)
Variable World : Type.
Variable send : request -> World -> http_result * World.

Record state : Type := {
  world : World;
  stdout : list msg
}.

(** Python statements: read and change the state, then return, raise or
    run out of fuel. *)
Definition M (A : Type) : Type := state -> res A * state.

Definition ret {A} (a : A) : M A := fun s => (Ok a, s).

Definition bind {A B} (c : M A) (k : A -> M B) : M B :=
  fun s =>
    match c s with
    | (Ok a, s') => k a s'
    | (Raise e, s') => (Raise e, s')
    | (OutOfFuel, s') => (OutOfFuel, s')
    end.

Definition lift {A} (r : res A) : M A := fun s => (r, s).

Definition raise {A} (e : exn) : M A := lift (Raise e).

Definition print (m : msg) : M unit :=
  fun s => (Ok tt, {| world := world s; stdout := stdout s ++ [m] |}).

Definition requests (r : request) : M http_result :=
  fun s => let (h, w) := send r (world s) in
           (Ok h, {| world := w; stdout := stdout s |}).

Notation "x <- c ;; k" := (bind c (fun x => k))
  (at level 61, c at next level, right associativity).
Notation "c ;; k" := (bind c (fun _ => k))
  (at level 61, right associativity).

(** *** [get_vercel_projects] (lines 14-40)

    The arguments of the loop are the local variables [url] ([None] when
    the loop is over), [projects] and [response] ([None] while nothing
    has been assigned to it). *)
Fixpoint get_vercel_projects_loop (fuel : nat) (api_token : string)
    (url : option page_url) (projects : list json) (response : option response)
    : M (option (list json)) :=
  match url with
  | None => ret (Some projects)
  | Some u =>
      match fuel with
      | O => lift OutOfFuel
      | S fuel' =>
          h <- requests (GetProjects api_token u) ;;
          match classify h with
          | Fetched r data =>
              page <- lift (py_get data "projects" (JArr [])) ;;
              items <- lift (py_iter page) ;;
              pagination <- lift (py_get data "pagination" (JObj [])) ;;
              next_page <- lift (py_get pagination "next" JNull) ;;
              get_vercel_projects_loop fuel' api_token
                (if truthy next_page then Some (Until next_page) else None)
                (projects ++ items) (Some r)
          | Failed e bound =>
              print (ErrorFetchingProjects e) ;;
              match (match bound with Some r => Some r | None => response end) with
              | None => raise UnboundLocalError
              | Some r =>
                  print (ResponseStatus (status_code r)) ;;
                  print (ResponseText (text r)) ;;
                  ret None
              end
          end
      end
  end.

Definition get_vercel_projects (fuel : nat) (api_token : string)
    : M (option (list json)) :=
  get_vercel_projects_loop fuel api_token (Some FirstPage) [] None.

(** *** [get_vercel_project_details] (lines 42-81)

    Returns the [details] dict, or [JNull] for Python's [None]. *)
Definition get_vercel_project_details (api_token : string) (project_id : json)
    : M json :=
  let details := [] in
  h <- requests (GetProject api_token project_id) ;;
  match classify h with
  | Failed e _ => print (ErrorFetchingInfo project_id e) ;; ret JNull
  | Fetched _ info =>
      let details := assoc_set String.eqb details "info" info in
      h <- requests (GetProjectEnv api_token project_id) ;;
      env_vars <- match classify h with
                  | Fetched _ data => lift (py_get data "envs" (JArr []))
                  | Failed e _ =>
                      print (ErrorFetchingEnvVars project_id e) ;; ret (JArr [])
                  end ;;
      let details := assoc_set String.eqb details "env_vars" env_vars in
      h <- requests (GetProjectDomains api_token project_id) ;;
      domains <- match classify h with
                 | Fetched _ data => lift (py_get data "domains" (JArr []))
                 | Failed e _ =>
                     print (ErrorFetchingDomains project_id e) ;; ret (JArr [])
                 end ;;
      let details := assoc_set String.eqb details "domains" domains in
      ret (JObj details)
  end.

(** *** [create_cloudflare_pages_project] (lines 83-190)

    Returns [result.get('result')], or [JNull] for [None]. *)
Definition create_cloudflare_pages_project (cf_api_token cf_account_id : string)
    (vercel_project_details : json) : M json :=
  p <- lift (prepare_payload vercel_project_details) ;;
  match p with
  | MissingName => print SkippingMissingName ;; ret JNull
  | NotGithub project_name =>
      print (SkippingNotGithub project_name) ;;
      print PagesSupportsGitOrUpload ;;
      print ManualMigrationNeeded ;;
      ret JNull
  | Ready project_name payload =>
      print (AttemptingToCreate project_name) ;;
      h <- requests (PostPagesProject cf_api_token cf_account_id payload) ;;
      match classify h with
      | Fetched _ result =>
          r1 <- lift (py_get result "result" (JObj [])) ;;
          created <- lift (py_get r1 "name" JNull) ;;
          print (SuccessfullyCreated created) ;;
          r2 <- lift (py_get result "result" (JObj [])) ;;
          sub <- lift (py_get r2 "subdomain" JNull) ;;
          print (Subdomain sub) ;;
          lift (py_get result "result" JNull)
      | Failed e bound =>
          print (ErrorCreating project_name e) ;;
          match bound with
          | None => raise UnboundLocalError
          | Some r =>
              print (ResponseStatus (status_code r)) ;;
              print (ResponseText (text r)) ;;
              ret JNull
          end
      end
  end.

(** *** [main] (lines 192-235) *)

(** Body of the [for project in vercel_projects] loop. *)
Definition process_project (vercel_token cf_token cf_account_id : string)
    (project : json) : M unit :=
  project_id <- lift (py_get project "id" JNull) ;;
  project_name <- lift (py_get project "name" JNull) ;;
  print (ProcessingProject project_name project_id) ;;
  if negb (truthy project_id) then print SkippingMissingId
  else
    project_details <- get_vercel_project_details vercel_token project_id ;;
    if truthy project_details then
      github <- lift (linked_via_github project_details) ;;
      if (github : bool) then
        create_cloudflare_pages_project cf_token cf_account_id project_details ;;
        ret tt
      else
        print (SkippingUnsupportedLink project_name) ;;
        print ManualMigrationMightBeRequired
    else print (SkippingFetchFailed project_name).

Fixpoint process_projects (vercel_token cf_token cf_account_id : string)
    (vercel_projects : list json) : M unit :=
  match vercel_projects with
  | [] => ret tt
  | project :: rest =>
      process_project vercel_token cf_token cf_account_id project ;;
      process_projects vercel_token cf_token cf_account_id rest
  end.

(** [project_id] is [args.project_id]: [None] when the option is not
    given.  [main] returns nothing; all it reports is printed. *)
Definition main (fuel : nat) (vercel_token cf_token cf_account_id : string)
    (project_id : option string) : M unit :=
  let arg := match project_id with Some s => JStr s | None => JNull end in
  print FetchingProjects ;;
  if truthy arg then
    print (FetchingSpecific arg) ;;
    project_details <- get_vercel_project_details vercel_token arg ;;
    (if truthy project_details then
       create_cloudflare_pages_project cf_token cf_account_id project_details ;;
       ret tt
     else print (CouldNotFetchDetails arg)) ;;
    print MigrationFinished
  else
    vercel_projects <- get_vercel_projects fuel vercel_token ;;
    match vercel_projects with
    | None | Some [] => print FailedOrNoProjects
    | Some ps =>
        print (FoundProjects (List.length ps)) ;;
        process_projects vercel_token cf_token cf_account_id ps ;;
        print MigrationFinished
    end.

End Script.

Arguments world {World} s.
Arguments stdout {World} s.
Arguments ret {World A} a s.
Arguments bind {World A B} c k s.
Arguments lift {World A} r s.
Arguments raise {World A} e s.
Arguments print {World} m s.

(** The state a run starts in: nothing printed yet. *)
Definition start {World} (w : World) : state World :=
  {| world := w; stdout := [] |}.

(** ** The vocabulary of the specification *)

Definition is_obj (j : json) : bool :=
  match j with JObj _ => true | _ => false end.

Definition is_list (j : json) : bool :=
  match j with JArr _ => true | _ => false end.

Definition hashable (j : json) : bool :=
  match j with JArr _ | JObj _ => false | _ => true end.

(** [x.f] on a record of the data model: the field of a dict, [JNull] when
    the field, or the record itself, is absent. *)
Definition field (x : json) (f : string) : json :=
  match x with
  | JObj fs => fields_get fs f JNull
  | _ => JNull
  end.

(** [detail.envVars], an ordered sequence. *)
Definition env_vars_of (detail : json) : list json :=
  match detail with
  | JObj fs => match fields_get fs "env_vars" (JArr []) with
               | JArr l => l
               | _ => []
               end
  | _ => []
  end.

(** An EnvVar: a dict whose scopes ([target]) are a list and whose key can
    index a dict. *)
Definition wf_env_var (var : json) : bool :=
  match var with
  | JObj fs => is_list (fields_get fs "target" (JArr []))
               && hashable (fields_get fs "key" JNull)
  | _ => false
  end.

(** A SourceProjectDetail: a dict with a dict under [info] and a list of
    EnvVars under [env_vars]. *)
Definition wf_detail (detail : json) : bool :=
  match detail with
  | JObj fs =>
      is_obj (fields_get fs "info" (JObj []))
      && is_list (fields_get fs "env_vars" (JArr []))
      && forallb wf_env_var (env_vars_of detail)
  | _ => false
  end.

(** [detail.info.name] is present and non-empty. *)
Definition has_name (detail : json) : bool :=
  truthy (field (field detail "info") "name").

(** Eligibility, section 4.3: [detail.info.link.type == "github"]. *)
Definition is_eligible (detail : json) : bool :=
  eq_str (field (field (field detail "info") "link") "type") "github".

(** [scope] is one of the scopes of the EnvVar. *)
Definition in_scopes (scope : string) (var : json) : bool :=
  match var with
  | JObj fs => match fields_get fs "target" (JArr []) with
               | JArr l => existsb (fun e => eq_str e scope) l
               | _ => false
               end
  | _ => false
  end.

(** Section 4.4, step 4: what one EnvVar contributes to the map of [scope]:
    nothing unless key and value are both non-empty and [scope] is among
    its scopes. *)
Definition contribution (scope : string) (var : json) : option (pykey * json) :=
  if truthy (field var "key") && truthy (field var "value") && in_scopes scope var
  then match py_hash (field var "key") with
       | Ok k => Some (k, field var "value")
       | _ => None
       end
  else None.

(** One step of the fan-out: [m[key] = value] when the EnvVar contributes. *)
Definition fan_step (scope : string) (m : pydict) (var : json) : pydict :=
  match contribution scope var with
  | Some (k, v) => dict_set m k v
  | None => m
  end.

(** The map of [scope] as the in-order fold of the EnvVars. *)
Definition fan_out (scope : string) (vars : list json) : pydict :=
  fold_left (fan_step scope) vars [].

(** Last-write-wins: the value the last EnvVar with key [k] contributes. *)
Fixpoint last_write (scope : string) (k : pykey) (vars : list json) : option json :=
  match vars with
  | [] => None
  | var :: rest =>
      match last_write scope k rest with
      | Some v => Some v
      | None => match contribution scope var with
                | Some (k', v) => if pykey_eqb k' k then Some v else None
                | None => None
                end
      end
  end.

(** The request did not deliver a JSON body: the [except] branch runs. *)
Definition request_fails (h : http_result) : bool :=
  match classify h with Failed _ _ => true | Fetched _ _ => false end.

(** The answer follows the interface of section 6 for a facet: if it
    succeeds, its body is an object whose [key], when given, is a list. *)
Definition facet_conforms (key : string) (h : http_result) : bool :=
  match classify h with
  | Failed _ _ => true
  | Fetched _ (JObj fs) => is_list (fields_get fs key (JArr []))
  | Fetched _ _ => false
  end.

(** What a page request that succeeds delivers: the projects of the page
    and the [url] of the next one, if any. *)
Definition page_of (h : http_result) : option (list json * option page_url) :=
  match classify h with
  | Fetched _ (JObj fs) =>
      match py_iter (fields_get fs "projects" (JArr [])),
            fields_get fs "pagination" (JObj []) with
      | Ok items, JObj pfs =>
          let next_page := fields_get pfs "next" JNull in
          Some (items, if truthy next_page then Some (Until next_page) else None)
      | _, _ => None
      end
  | _ => None
  end.

(** [listing send tok w u pages w']: starting at [u] in world [w], every
    page request succeeds; the pages received are [pages], in this order,
    the last one carries no cursor, and the world is then [w']. *)
Inductive listing {World : Type} (send : request -> World -> http_result * World)
    (api_token : string) : World -> page_url -> list (list json) -> World -> Prop :=
| listing_last (w : World) (u : page_url) (items : list json) :
    page_of (fst (send (GetProjects api_token u) w)) = Some (items, None) ->
    listing send api_token w u [items] (snd (send (GetProjects api_token u) w))
| listing_more (w w' : World) (u next : page_url) (items : list json)
    (rest : list (list json)) :
    page_of (fst (send (GetProjects api_token u) w)) = Some (items, Some next) ->
    listing send api_token (snd (send (GetProjects api_token u) w)) next rest w' ->
    listing send api_token w u (items :: rest) w'.

(** [breaks send tok n w u]: starting at [u] in world [w], the [n]-th page
    request fails after [n - 1] pages were received. *)
Inductive breaks {World : Type} (send : request -> World -> http_result * World)
    (api_token : string) : nat -> World -> page_url -> Prop :=
| breaks_here (w : World) (u : page_url) :
    request_fails (fst (send (GetProjects api_token u) w)) = true ->
    breaks send api_token 1 w u
| breaks_later (n : nat) (w : World) (u next : page_url) (items : list json) :
    page_of (fst (send (GetProjects api_token u) w)) = Some (items, Some next) ->
    breaks send api_token n (snd (send (GetProjects api_token u) w)) next ->
    breaks send api_token (S n) w u.

(** The summary of section 4.6. *)
Record summary : Type := {
  created : nat;
  skipped_ineligible : nat;
  skipped_error : nat;
  failed_creation : nat
}.

Definition count_msgs (p : msg -> bool) (out : list msg) : nat :=
  List.length (filter p out).

(** The counts a summary would hold, read off the per-project messages. *)
Definition tally (out : list msg) : summary :=
  {| created := count_msgs (fun m => match m with SuccessfullyCreated _ => true | _ => false end) out;
     skipped_ineligible :=
       count_msgs (fun m => match m with
                            | SkippingUnsupportedLink _ | SkippingNotGithub _ => true
                            | _ => false end) out;
     skipped_error :=
       count_msgs (fun m => match m with
                            | SkippingFetchFailed _ | SkippingMissingName | SkippingMissingId => true
                            | _ => false end) out;
     failed_creation :=
       count_msgs (fun m => match m with ErrorCreating _ _ => true | _ => false end) out |}.

(** The projects the loop of [main] announced, in the order it did. *)
Fixpoint processed (out : list msg) : list (json * json) :=
  match out with
  | [] => []
  | ProcessingProject project_name project_id :: rest =>
      (project_name, project_id) :: processed rest
  | _ :: rest => processed rest
  end.

(** [detail.info] is a dict whose [link] is absent or a dict. *)
Definition link_absent_or_dict (detail : json) : bool :=
  match field detail "info" with
  | JObj ifs => match assoc_get String.eqb ifs "link" with
                | None => true
                | Some l => is_obj l
                end
  | _ => false
  end.

(** An answer the script can digest: it follows the interface of section 6
    (objects where objects are expected, EnvVars under [envs], a link that
    is a dict), and the creation request, if it fails, fails with a
    response. *)
Definition well_shaped (req : request) (h : http_result) : bool :=
  match req with
  | GetProjects _ _ => true
  | GetProject _ _ =>
      match classify h with
      | Failed _ _ => true
      | Fetched _ (JObj ifs) =>
          match assoc_get String.eqb ifs "link" with
          | None => true
          | Some l => is_obj l
          end
      | Fetched _ _ => false
      end
  | GetProjectEnv _ _ =>
      match classify h with
      | Failed _ _ => true
      | Fetched _ (JObj fs) =>
          match fields_get fs "envs" (JArr []) with
          | JArr l => forallb wf_env_var l
          | _ => false
          end
      | Fetched _ _ => false
      end
  | GetProjectDomains _ _ =>
      match classify h with
      | Failed _ _ => true
      | Fetched _ d => is_obj d
      end
  | PostPagesProject _ _ _ =>
      match classify h with
      | Failed _ (Some _) => true
      | Failed _ None => false
      | Fetched _ (JObj fs) => is_obj (fields_get fs "result" (JObj []))
      | Fetched _ _ => false
      end
  end.

(** [c] returns normally from every state, its result satisfies [Q], and
    it announces no project. *)
Definition quietly {World A : Type} (c : M World A) (Q : A -> Prop) : Prop :=
  forall s, exists a s',
    c s = (Ok a, s') /\ processed (stdout s') = processed (stdout s) /\ Q a.

(** What the loop of [main] announces for a project: its name and id. *)
Definition announced (project : json) : json * json :=
  (field project "name", field project "id").

(** [main] yields a summary: some reading of what [main]
    returns gives, for every run, the counts of that run. *)
Definition yields_summary {World : Type}
    (send : request -> World -> http_result * World) : Prop :=
  exists summary_of : res unit -> summary,
    forall fuel vercel_token cf_token cf_account_id w,
      let run := main World send fuel vercel_token cf_token cf_account_id None (start w) in
      summary_of (fst run) = tally (stdout (snd run)).

(** [detail.info.link] is absent, null or a dict. *)
Definition wf_link (detail : json) : bool :=
  match field (field detail "info") "link" with
  | JNull | JObj _ => true
  | _ => false
  end.

(** The [source] of the payload as section 4.4, step 5 words it. *)
Definition source_as_specified (detail : json) (payload : payload_t) : Prop :=
  let info := field detail "info" in
  let link := field info "link" in
  source_type (source payload) = JStr "git-provider"
  /\ owner (config (source payload)) = field link "owner"
  /\ repo_name (config (source payload)) = field link "repo"
  /\ config_production_branch (config (source payload))
     = py_or (field info "productionBranch") (JStr "main").

(** ** Sample data *)

Definition env_var (key value : string) (target : list string) : json :=
  JObj [("key", JStr key); ("value", JStr value);
        ("target", JArr (map JStr target)); ("type", JStr "plain")].

Definition sample_link : json :=
  JObj [("type", JStr "github"); ("owner", JStr "alice");
        ("org", JStr "acme"); ("repo", JStr "site")].

Definition sample_env_vars : list json :=
  [ env_var "API_URL" "https://staging.example" ["production"; "preview"];
    env_var "API_URL" "https://example" ["production"];
    env_var "DEBUG" "1" ["development"];
    env_var "EMPTY" "" ["production"; "preview"] ].

Definition sample_detail : json :=
  JObj [("info", JObj [("name", JStr "site");
                       ("buildCommand", JStr "npm run build");
                       ("outputDirectory", JStr "dist");
                       ("link", sample_link)]);
        ("env_vars", JArr sample_env_vars);
        ("domains", JArr [])].

(** The payload posted for the sample project. *)
Definition sample_payload : payload_t :=
  {| name := JStr "site";
     production_branch := JStr "main";
     build_config :=
       {| build_command := JStr "npm run build";
          output_dir := JStr "dist";
          root_dir := JStr "/";
          web_analytics_tag := JNull;
          web_analytics_token := JNull |};
     source :=
       {| source_type := JStr "github";
          config := {| owner := JStr "acme";
                       repo_name := JStr "site";
                       config_production_branch := JStr "main";
                       pr_comments_enabled := JBool true;
                       deployments_enabled := JBool true |} |};
     deployment_configs :=
       {| preview_environment_variables :=
            [(KStr "API_URL", JStr "https://staging.example")];
          production_environment_variables :=
            [(KStr "API_URL", JStr "https://example")] |} |}.

(** The same project without a name. *)
Definition unnamed_detail : json :=
  JObj [("info", JObj [("link", sample_link)]);
        ("env_vars", JArr sample_env_vars);
        ("domains", JArr [])].

(** A network that answers from a script, whatever is asked; once the
    script is over every call fails to connect. *)
Definition scripted (req : request) (w : list http_result)
    : http_result * list http_result :=
  match w with
  | [] => (ConnectionError, [])
  | h :: rest => (h, rest)
  end.

Definition ok_response (data : json) : http_result :=
  Response {| status_code := 200; text := "ok"; body := Some data |}.

Definition error_response (status : Z) : http_result :=
  Response {| status_code := status; text := "error"; body := None |}.

(** Info succeeds, the environment variables cannot be fetched, the
    domains can. *)
Definition env_fetch_fails : list http_result :=
  [ ok_response (field sample_detail "info");
    ConnectionError;
    ok_response (JObj [("domains", JArr [JStr "example.com"])]) ].

(** The very first request cannot connect. *)
Definition unreachable : list http_result := [ConnectionError].

(** Two pages of projects, then the end of the listing. *)
Definition project (id project_name : string) : json :=
  JObj [("id", JStr id); ("name", JStr project_name)].

Definition two_pages : list http_result :=
  [ ok_response (JObj [("projects", JArr [project "prj_1" "site"; project "prj_2" "blog"]);
                       ("pagination", JObj [("next", JNum 1700000000)])]);
    ok_response (JObj [("projects", JArr [project "prj_3" "docs"]);
                       ("pagination", JObj [("next", JNull)])]) ].

(** One page, then the second page request cannot connect. *)
Definition second_page_unreachable : list http_result :=
  [ ok_response (JObj [("projects", JArr [project "prj_1" "site"]);
                       ("pagination", JObj [("next", JNum 1700000000)])]);
    ConnectionError ].

(** A network whose answer depends on the request only. *)
Definition stateless (answer : request -> http_result) (req : request) (w : unit)
    : http_result * unit :=
  (answer req, tt).

Definition github_info (project_name : string) : json :=
  JObj [("name", JStr project_name); ("link", sample_link)].

Definition sample_projects : list json :=
  [ project "prj_1" "site"; project "prj_2" "blog"; project "prj_3" "gone";
    project "prj_4" "shop"; project "prj_5" "anonymous" ].

(** Five projects, one for each way a project can end: [prj_1] is created,
    [prj_2] is linked to another provider, the info of [prj_3] cannot be
    fetched, the creation of [prj_4] is rejected and [prj_5] has no name. *)
Definition sample_answers (req : request) : http_result :=
  match req with
  | GetProjects _ FirstPage => ok_response (JObj [("projects", JArr sample_projects)])
  | GetProjects _ (Until _) => ok_response (JObj [])
  | GetProject _ id =>
      if eq_str id "prj_1" then ok_response (github_info "site")
      else if eq_str id "prj_2" then
        ok_response (JObj [("name", JStr "blog");
                           ("link", JObj [("type", JStr "gitlab")])])
      else if eq_str id "prj_4" then ok_response (github_info "shop")
      else if eq_str id "prj_5" then ok_response (JObj [("link", sample_link)])
      else error_response 404
  | GetProjectEnv _ _ => ok_response (JObj [("envs", JArr sample_env_vars)])
  | GetProjectDomains _ _ => error_response 500
  | PostPagesProject _ _ payload =>
      if eq_str (name payload) "site" then
        ok_response (JObj [("result", JObj [("name", JStr "site");
                                            ("subdomain", JStr "site.pages.dev")])])
      else error_response 409
  end.

(** A bulk run over one project that gets created ... *)
Definition created_run : list http_result :=
  [ ok_response (JObj [("projects", JArr [project "prj_1" "site"])]);
    ok_response (github_info "site");
    ok_response (JObj [("envs", JArr [])]);
    ok_response (JObj [("domains", JArr [])]);
    ok_response (JObj [("result", JObj [("name", JStr "site");
                                        ("subdomain", JStr "site.pages.dev")])]) ].

(** ... and one over a project that is skipped as not linked via GitHub. *)
Definition skipped_run : list http_result :=
  [ ok_response (JObj [("projects", JArr [project "prj_2" "blog"])]);
    ok_response (JObj [("name", JStr "blog"); ("link", JObj [("type", JStr "gitlab")])]);
    ok_response (JObj [("envs", JArr [])]);
    ok_response (JObj [("domains", JArr [])]) ].

(** A project whose info carries [link: null]. *)
Definition null_link_info : json :=
  JObj [("name", JStr "site"); ("link", JNull)].

Definition null_link_detail : json :=
  JObj [("info", null_link_info); ("env_vars", JArr []); ("domains", JArr [])].

(** A bulk run over that project followed by a second, GitHub-linked one. *)
Definition null_link_run : list http_result :=
  [ ok_response (JObj [("projects", JArr [project "prj_1" "site"; project "prj_2" "blog"])]);
    ok_response null_link_info;
    ok_response (JObj [("envs", JArr [])]);
    ok_response (JObj [("domains", JArr [])]);
    ok_response (github_info "blog");
    ok_response (JObj [("envs", JArr [])]);
    ok_response (JObj [("domains", JArr [])]);
    ok_response (JObj [("result", JObj [("name", JStr "blog")])]) ].

(** ** More sample data *)

(** The EnvVar with another [type] (plain, encrypted, secret, ...). *)
Definition retype (t : json) (var : json) : json :=
  match var with
  | JObj fs => JObj (assoc_set String.eqb fs "type" t)
  | _ => var
  end.

(** A listing that never ends: every page carries a cursor. *)
Definition endless_answers (req : request) : http_result :=
  ok_response (JObj [("projects", JArr [project "prj_1" "site"]);
                     ("pagination", JObj [("next", JNum 1700000000)])]).

(** A listing of two pages without a single project. *)
Definition empty_listing : list http_result :=
  [ ok_response (JObj [("projects", JArr []);
                       ("pagination", JObj [("next", JStr "cursor")])]);
    ok_response (JObj []) ].

(** The listing endpoint answers with a server error. *)
Definition listing_refused : list http_result := [error_response 500].

(** No name, and nothing else in order either: [env_vars] is a number and
    the link a string. *)
Definition malformed_unnamed_detail : json :=
  JObj [("info", JObj [("name", JStr ""); ("link", JStr "github")]);
        ("env_vars", JNum 5)].

(** A named project one of whose variables has [target: null]. *)
Definition null_target_var : json :=
  JObj [("key", JStr "TOKEN"); ("value", JStr "s3cret"); ("target", JNull)].

Definition null_target_detail : json :=
  JObj [("info", github_info "site");
        ("env_vars", JArr [env_var "API_URL" "https://example" ["production"];
                           null_target_var;
                           env_var "DEBUG" "1" ["preview"]])].

(** A named project whose link is the string "github". *)
Definition string_link_detail : json :=
  JObj [("info", JObj [("name", JStr "site"); ("link", JStr "github")]);
        ("env_vars", JArr [])].

(** Info and variables arrive, the domains answer is a JSON array. *)
Definition domains_as_array : list http_result :=
  [ ok_response (github_info "site");
    ok_response (JObj [("envs", JArr [])]);
    ok_response (JArr [JStr "example.com"]) ].

(** The variables answer is a JSON array; the domains are never asked. *)
Definition envs_as_array : list http_result :=
  [ ok_response (github_info "site");
    ok_response (JArr []);
    ok_response (JObj [("domains", JArr [])]) ].

(** A bulk run whose first creation request cannot connect; the answers
    for the second project are never consumed. *)
Definition creation_unreachable_run : list http_result :=
  [ ok_response (field sample_detail "info");
    ok_response (JObj [("envs", JArr sample_env_vars)]);
    ok_response (JObj [("domains", JArr [])]);
    ConnectionError;
    ok_response (github_info "blog") ].

(** The answers to a single-project run on the project with [link: null]. *)
Definition null_link_single_run : list http_result :=
  [ ok_response null_link_info;
    ok_response (JObj [("envs", JArr [])]);
    ok_response (JObj [("domains", JArr [])]) ].

(** Info and domains arrive, the variables endpoint is down. *)
Definition env_endpoint_down : list http_result :=
  [ ok_response (field sample_detail "info");
    error_response 503;
    ok_response (JObj [("domains", JArr [])]) ].

(** The creation request is answered with a body that has no [result]. *)
Definition created_without_result : list http_result :=
  [ ok_response (JObj [("success", JBool true)]) ].

(** The creation request is answered with [result: null]. *)
Definition created_with_null_result : list http_result :=
  [ ok_response (JObj [("result", JNull)]) ].

(** * Properties *)

(** ** Dictionaries *)

Lemma pykey_eqb_eq (a b : pykey) : pykey_eqb a b = true <-> a = b.
Proof.
  destruct a, b; simpl; split; intro H; try discriminate; try reflexivity.
  - apply Z.eqb_eq in H. now subst.
  - inversion H. apply Z.eqb_refl.
  - apply String.eqb_eq in H. now subst.
  - inversion H. apply String.eqb_refl.
Qed.

Lemma pykey_eqb_refl (a : pykey) : pykey_eqb a a = true.
Proof. now apply pykey_eqb_eq. Qed.

Lemma dict_get_set (d : pydict) (k k' : pykey) (v : json) :
  dict_get (dict_set d k' v) k = if pykey_eqb k' k then Some v else dict_get d k.
Proof.
  unfold dict_get, dict_set.
  induction d as [|[k0 v0] d IH]; simpl.
  - reflexivity.
  - destruct (pykey_eqb k0 k') eqn:E0; simpl.
    + apply pykey_eqb_eq in E0. rewrite E0.
      destruct (pykey_eqb k' k); reflexivity.
    + destruct (pykey_eqb k0 k) eqn:E1.
      * destruct (pykey_eqb k' k) eqn:E2; [|reflexivity].
        apply pykey_eqb_eq in E1, E2. subst k0 k'.
        now rewrite pykey_eqb_refl in E0.
      * exact IH.
Qed.

(** ** The environment loop against the fold of the specification *)

Lemma env_step_fan_step (prod prev : pydict) (var : json) :
  wf_env_var var = true ->
  env_step (prod, prev) var
  = Ok (fan_step "production" prod var, fan_step "preview" prev var).
Proof.
  destruct var as [| | | | |fs]; try discriminate.
  unfold wf_env_var, env_step, fan_step, contribution, in_scopes, py_setitem.
  cbn [py_get rbind field fst snd].
  intro H. apply andb_prop in H as [Ht Hk].
  destruct (fields_get fs "target" (JArr [])) as [| | | |l|]; try discriminate.
  destruct (truthy (fields_get fs "key" JNull)); [|reflexivity].
  destruct (truthy (fields_get fs "value" JNull)); [|reflexivity].
  cbn [andb py_in rbind].
  destruct (fields_get fs "key" JNull); try discriminate;
    cbn [py_hash rbind];
    destruct (existsb (fun e => eq_str e "production") l);
    destruct (existsb (fun e => eq_str e "preview") l); reflexivity.
Qed.

Lemma env_loop_fold (vars : list json) :
  forall prod prev,
  forallb wf_env_var vars = true ->
  env_loop (prod, prev) vars
  = Ok (fold_left (fan_step "production") vars prod,
        fold_left (fan_step "preview") vars prev).
Proof.
  induction vars as [|var vars IH]; intros prod prev H.
  - reflexivity.
  - simpl in H. apply andb_prop in H as [Hv Hr].
    cbn [env_loop]. rewrite (env_step_fan_step _ _ _ Hv). cbn [rbind].
    now rewrite IH.
Qed.

Lemma fold_fan_step_lookup (scope : string) (k : pykey) (vars : list json) :
  forall m,
  dict_get (fold_left (fan_step scope) vars m) k
  = match last_write scope k vars with
    | Some v => Some v
    | None => dict_get m k
    end.
Proof.
  induction vars as [|var vars IH]; intro m.
  - reflexivity.
  - cbn [fold_left last_write]. rewrite IH.
    destruct (last_write scope k vars); [reflexivity|].
    unfold fan_step.
    destruct (contribution scope var) as [[k' v]|]; [|reflexivity].
    rewrite dict_get_set. now destruct (pykey_eqb k' k).
Qed.

(** ** Lines 91-173 on a well-formed, named, GitHub-linked detail *)

Lemma fields_get_found (fs : list (string * json)) (k : string) (v d : json) :
  assoc_get String.eqb fs k = Some v -> fields_get fs k d = v.
Proof. unfold fields_get. now intros ->. Qed.

Lemma prepare_payload_ready (detail : json) :
  wf_detail detail = true ->
  has_name detail = true ->
  is_eligible detail = true ->
  let info := field detail "info" in
  let link := field info "link" in
  prepare_payload detail
  = Ok (Ready (field info "name")
          {| name := field info "name";
             production_branch := py_or (field info "productionBranch") (JStr "main");
             build_config :=
               {| build_command := field info "buildCommand";
                  output_dir := field info "outputDirectory";
                  root_dir := py_or (field info "rootDirectory") (JStr "/");
                  web_analytics_tag := JNull;
                  web_analytics_token := JNull |};
             source :=
               {| source_type := JStr "github";
                  config :=
                    {| owner := field link "org";
                       repo_name := field link "repo";
                       config_production_branch :=
                         py_or (field info "productionBranch") (JStr "main");
                       pr_comments_enabled := JBool true;
                       deployments_enabled := JBool true |} |};
             deployment_configs :=
               {| preview_environment_variables :=
                    fold_left (fan_step "preview") (env_vars_of detail) [];
                  production_environment_variables :=
                    fold_left (fan_step "production") (env_vars_of detail) [] |} |}).
Proof.
  destruct detail as [| | | | |fs]; try discriminate.
  unfold wf_detail, has_name, is_eligible, prepare_payload.
  cbn [field py_get rbind env_vars_of].
  intros Hwf Hname Hel.
  apply andb_prop in Hwf as [Hwf Hvars]. apply andb_prop in Hwf as [Hinfo Hlist].
  destruct (assoc_get String.eqb fs "info") as [info|] eqn:Einfo;
    [|unfold fields_get in Hname; rewrite Einfo in Hname; discriminate].
  rewrite (fields_get_found _ _ _ (JObj []) Einfo) in *.
  rewrite (fields_get_found _ _ _ JNull Einfo) in *.
  destruct info as [| | | | |ifs]; try discriminate.
  cbn [field py_get rbind] in *.
  rewrite Hname. cbn [negb].
  destruct (fields_get fs "env_vars" (JArr [])) as [| | | |vars|]; try discriminate.
  cbn [py_iter rbind].
  rewrite (env_loop_fold _ _ _ Hvars). cbn [rbind fst snd].
  destruct (fields_get ifs "link" JNull) as [| | | | |lfs]; try discriminate.
  destruct lfs as [|kv lfs]; [discriminate|].
  cbn [truthy negb py_get rbind field] in *.
  rewrite Hel. reflexivity.
Qed.

Lemma prepare_payload_named (detail : json) :
  wf_detail detail = true ->
  has_name detail = true ->
  prepare_payload detail <> Ok MissingName.
Proof.
  destruct detail as [| | | | |fs]; try discriminate.
  unfold wf_detail, has_name, prepare_payload.
  cbn [field py_get rbind env_vars_of].
  intros Hwf Hname.
  apply andb_prop in Hwf as [Hwf Hvars]. apply andb_prop in Hwf as [Hinfo Hlist].
  destruct (assoc_get String.eqb fs "info") as [info|] eqn:Einfo;
    [|unfold fields_get in Hname; rewrite Einfo in Hname; discriminate].
  rewrite (fields_get_found _ _ _ (JObj []) Einfo) in *.
  rewrite (fields_get_found _ _ _ JNull Einfo) in *.
  destruct info as [| | | | |ifs]; try discriminate.
  cbn [field py_get rbind] in *.
  rewrite Hname. cbn [negb].
  destruct (fields_get fs "env_vars" (JArr [])) as [| | | |vars|]; try discriminate.
  cbn [py_iter rbind].
  rewrite (env_loop_fold _ _ _ Hvars). cbn [rbind fst snd].
  destruct (fields_get ifs "link" JNull) as [|b|z|s|l|lfs];
    cbn [truthy negb py_get rbind]; try discriminate.
  - destruct b; cbn; discriminate.
  - destruct (z =? 0); cbn; discriminate.
  - destruct (s =? "")%string; cbn; discriminate.
  - destruct l; cbn; discriminate.
  - destruct lfs; cbn [negb rbind]; [discriminate|].
    destruct (eq_str _ "github"); cbn; discriminate.
Qed.

Lemma prepare_payload_unnamed (detail : json) :
  wf_detail detail = true ->
  has_name detail = false ->
  prepare_payload detail = Ok MissingName.
Proof.
  destruct detail as [| | | | |fs]; try discriminate.
  unfold wf_detail, has_name, prepare_payload.
  cbn [field py_get rbind env_vars_of].
  intros Hwf Hname.
  apply andb_prop in Hwf as [Hwf _]. apply andb_prop in Hwf as [Hinfo _].
  destruct (assoc_get String.eqb fs "info") as [info|] eqn:Einfo.
  - rewrite (fields_get_found _ _ _ (JObj []) Einfo) in *.
    rewrite (fields_get_found _ _ _ JNull Einfo) in *.
    destruct info as [| | | | |ifs]; try discriminate.
    cbn [field py_get rbind] in *. now rewrite Hname.
  - unfold fields_get. rewrite Einfo. reflexivity.
Qed.

Lemma prepare_payload_not_github (detail : json) :
  wf_detail detail = true ->
  has_name detail = true ->
  is_eligible detail = false ->
  wf_link detail = true ->
  prepare_payload detail = Ok (NotGithub (field (field detail "info") "name")).
Proof.
  destruct detail as [| | | | |fs]; try discriminate.
  unfold wf_detail, has_name, is_eligible, wf_link, prepare_payload.
  cbn [field py_get rbind env_vars_of].
  intros Hwf Hname Hel Hlink.
  apply andb_prop in Hwf as [Hwf Hvars]. apply andb_prop in Hwf as [Hinfo Hlist].
  destruct (assoc_get String.eqb fs "info") as [info|] eqn:Einfo;
    [|unfold fields_get in Hname; rewrite Einfo in Hname; discriminate].
  rewrite (fields_get_found _ _ _ (JObj []) Einfo) in *.
  rewrite (fields_get_found _ _ _ JNull Einfo) in *.
  destruct info as [| | | | |ifs]; try discriminate.
  cbn [field py_get rbind] in *.
  rewrite Hname. cbn [negb].
  destruct (fields_get fs "env_vars" (JArr [])) as [| | | |vars|]; try discriminate.
  cbn [py_iter rbind].
  rewrite (env_loop_fold _ _ _ Hvars). cbn [rbind fst snd].
  destruct (fields_get ifs "link" JNull) as [| | | | |lfs]; try discriminate.
  - reflexivity.
  - destruct lfs as [|kv lfs]; [reflexivity|].
    cbn [truthy negb py_get rbind field] in *.
    now rewrite Hel.
Qed.

(** ** The mapping transformer *)

(** C3.  On a SourceProjectDetail, lines 91-173 end with the missing-name
    failure exactly when [detail.info.name] is absent or empty.  With a
    name they never fail: a GitHub-linked detail gets its payload, any
    other one is set aside as not linked to GitHub. *)
Theorem mapping_error_iff_name_missing (detail : json) :
  wf_detail detail = true ->
  (prepare_payload detail = Ok MissingName <-> has_name detail = false)
  /\ (has_name detail = true -> is_eligible detail = true ->
      exists payload,
        prepare_payload detail
        = Ok (Ready (field (field detail "info") "name") payload))
  /\ (has_name detail = true -> is_eligible detail = false ->
      wf_link detail = true ->
      prepare_payload detail
      = Ok (NotGithub (field (field detail "info") "name"))).
Proof.
  intro Hwf. split; [split|split].
  - intro H. destruct (has_name detail) eqn:E; [|reflexivity].
    exfalso. exact (prepare_payload_named detail Hwf E H).
  - apply prepare_payload_unnamed, Hwf.
  - intros Hn He. eexists. exact (prepare_payload_ready detail Hwf Hn He).
  - intros Hn He Hl. exact (prepare_payload_not_github detail Hwf Hn He Hl).
Qed.

Lemma mapping_error_iff_name_missing_witness :
  (wf_detail unnamed_detail = true /\
   (prepare_payload unnamed_detail = Ok MissingName <-> has_name unnamed_detail = false))
  /\ (wf_detail sample_detail = true /\
      has_name sample_detail = true /\ is_eligible sample_detail = true /\
      exists payload, prepare_payload sample_detail = Ok (Ready (JStr "site") payload)).
Proof.
  split.
  - split; [reflexivity|].
    exact (proj1 (mapping_error_iff_name_missing unnamed_detail eq_refl)).
  - split; [reflexivity|]. split; [reflexivity|]. split; [reflexivity|].
    exact (proj1 (proj2 (mapping_error_iff_name_missing sample_detail eq_refl))
             eq_refl eq_refl).
Defined.

(** C1.  For a named, GitHub-linked SourceProjectDetail the two environment
    maps of the payload are the in-order folds of [detail.envVars], one per
    scope: a variable without a key or without a value adds nothing, a
    variable adds [key -> value] to the map of each of [production] and
    [preview] that is among its scopes, and a lookup returns what the last
    variable with that key in that scope wrote. *)
Theorem env_fan_out_is_fold (detail : json) :
  wf_detail detail = true ->
  has_name detail = true ->
  is_eligible detail = true ->
  exists payload,
    prepare_payload detail = Ok (Ready (field (field detail "info") "name") payload)
    /\ production_environment_variables (deployment_configs payload)
       = fan_out "production" (env_vars_of detail)
    /\ preview_environment_variables (deployment_configs payload)
       = fan_out "preview" (env_vars_of detail)
    /\ (forall k,
          dict_get (production_environment_variables (deployment_configs payload)) k
          = last_write "production" k (env_vars_of detail))
    /\ (forall k,
          dict_get (preview_environment_variables (deployment_configs payload)) k
          = last_write "preview" k (env_vars_of detail)).
Proof.
  intros Hwf Hn He. eexists. split.
  - exact (prepare_payload_ready detail Hwf Hn He).
  - cbn [deployment_configs production_environment_variables
         preview_environment_variables].
    unfold fan_out. repeat split; try reflexivity.
    + intro k. rewrite fold_fan_step_lookup.
      now destruct (last_write "production" k (env_vars_of detail)).
    + intro k. rewrite fold_fan_step_lookup.
      now destruct (last_write "preview" k (env_vars_of detail)).
Qed.

Lemma env_fan_out_is_fold_witness :
  wf_detail sample_detail = true
  /\ has_name sample_detail = true
  /\ is_eligible sample_detail = true
  /\ exists payload,
       prepare_payload sample_detail = Ok (Ready (JStr "site") payload)
       /\ production_environment_variables (deployment_configs payload)
          = [(KStr "API_URL", JStr "https://example")]
       /\ preview_environment_variables (deployment_configs payload)
          = [(KStr "API_URL", JStr "https://staging.example")].
Proof.
  repeat (split; [reflexivity|]).
  destruct (env_fan_out_is_fold sample_detail eq_refl eq_refl eq_refl)
    as (payload & Hp & Hprod & Hprev & _).
  exists payload. split; [exact Hp|]. split.
  - rewrite Hprod. reflexivity.
  - rewrite Hprev. reflexivity.
Defined.

(** What a variable contributes, case by case. *)
Lemma contribution_needs_key_and_value (scope : string) (var : json) :
  truthy (field var "key") = false \/ truthy (field var "value") = false ->
  contribution scope var = None.
Proof.
  unfold contribution. intros [H|H]; rewrite H; [reflexivity|].
  now rewrite andb_false_r.
Qed.

Lemma contribution_out_of_scope (scope : string) (var : json) :
  in_scopes scope var = false -> contribution scope var = None.
Proof.
  unfold contribution. intros ->. now rewrite andb_false_r.
Qed.

Lemma development_only_contributes_nothing (key value : string) :
  contribution "production" (env_var key value ["development"]) = None
  /\ contribution "preview" (env_var key value ["development"]) = None.
Proof. split; apply contribution_out_of_scope; reflexivity. Qed.

Lemma contribution_in_scope (scope key value : string) (target : list string) :
  key <> "" -> value <> "" -> In scope target ->
  contribution scope (env_var key value target) = Some (KStr key, JStr value).
Proof.
  intros Hk Hv Hin. unfold contribution, env_var, in_scopes.
  cbn [field fields_get assoc_get String.eqb Ascii.eqb Bool.eqb truthy py_hash].
  apply String.eqb_neq in Hk, Hv. rewrite Hk, Hv. cbn [negb andb].
  replace (existsb (fun e => eq_str e scope) (map JStr target)) with true;
    [reflexivity|].
  symmetry. apply existsb_exists. exists (JStr scope). split.
  - now apply in_map.
  - apply String.eqb_refl.
Qed.

(** C4, as the code has it.  For a named, GitHub-linked SourceProjectDetail
    the payload's source has type "github" and a [config] whose owner is
    [detail.info.link.org], whose repo_name is [detail.info.link.repo] and
    whose production_branch is [detail.info.productionBranch], or "main"
    when that is absent or empty. *)
Theorem source_is_github_repository (detail : json) :
  wf_detail detail = true ->
  has_name detail = true ->
  is_eligible detail = true ->
  let info := field detail "info" in
  let link := field info "link" in
  exists payload,
    prepare_payload detail = Ok (Ready (field info "name") payload)
    /\ source_type (source payload) = JStr "github"
    /\ owner (config (source payload)) = field link "org"
    /\ repo_name (config (source payload)) = field link "repo"
    /\ config_production_branch (config (source payload))
       = py_or (field info "productionBranch") (JStr "main").
Proof.
  intros Hwf Hn He info link. eexists. split.
  - exact (prepare_payload_ready detail Hwf Hn He).
  - repeat split; reflexivity.
Qed.

Lemma source_is_github_repository_witness :
  wf_detail sample_detail = true
  /\ has_name sample_detail = true
  /\ is_eligible sample_detail = true
  /\ exists payload,
       prepare_payload sample_detail = Ok (Ready (JStr "site") payload)
       /\ source_type (source payload) = JStr "github"
       /\ owner (config (source payload)) = JStr "acme"
       /\ repo_name (config (source payload)) = JStr "site"
       /\ config_production_branch (config (source payload)) = JStr "main".
Proof.
  repeat (split; [reflexivity|]).
  exact (source_is_github_repository sample_detail eq_refl eq_refl eq_refl).
Defined.

(** C4 as the specification words it does not hold: for the sample project,
    whose link carries both an [owner] and an [org], the payload's source
    type is "github", not "git-provider", and its owner is the [org]. *)
Lemma source_as_specified_fails :
  wf_detail sample_detail = true
  /\ has_name sample_detail = true
  /\ is_eligible sample_detail = true
  /\ exists payload,
       prepare_payload sample_detail = Ok (Ready (JStr "site") payload)
       /\ source_type (source payload) = JStr "github"
       /\ owner (config (source payload)) = JStr "acme"
       /\ field (field (field sample_detail "info") "link") "owner" = JStr "alice"
       /\ ~ source_as_specified sample_detail payload.
Proof.
  repeat (split; [reflexivity|]).
  eexists. split; [reflexivity|].
  repeat (split; [reflexivity|]).
  intros [H _]. discriminate H.
Qed.

(** C5.  For a named, GitHub-linked SourceProjectDetail: when
    [detail.info.productionBranch] is absent or empty, the payload's
    production_branch and its source.config.production_branch are both
    "main" (otherwise both are the given branch); when
    [detail.info.rootDirectory] is absent or empty, root_dir is "/"; and
    build_command and output_dir are the detail's [buildCommand] and
    [outputDirectory], whatever they are. *)
Theorem defaults_and_pass_through (detail : json) :
  wf_detail detail = true ->
  has_name detail = true ->
  is_eligible detail = true ->
  let info := field detail "info" in
  exists payload,
    prepare_payload detail = Ok (Ready (field info "name") payload)
    /\ (truthy (field info "productionBranch") = false ->
        production_branch payload = JStr "main"
        /\ config_production_branch (config (source payload)) = JStr "main")
    /\ (truthy (field info "productionBranch") = true ->
        production_branch payload = field info "productionBranch"
        /\ config_production_branch (config (source payload))
           = field info "productionBranch")
    /\ (truthy (field info "rootDirectory") = false ->
        root_dir (build_config payload) = JStr "/")
    /\ build_command (build_config payload) = field info "buildCommand"
    /\ output_dir (build_config payload) = field info "outputDirectory".
Proof.
  intros Hwf Hn He info. eexists. split.
  - exact (prepare_payload_ready detail Hwf Hn He).
  - cbn [production_branch source config config_production_branch
         build_config root_dir build_command output_dir].
    unfold py_or. fold info.
    split; [intro H; now rewrite H|].
    split; [intro H; now rewrite H|].
    split; [intro H; now rewrite H|].
    split; reflexivity.
Qed.

Lemma defaults_and_pass_through_witness :
  wf_detail sample_detail = true
  /\ has_name sample_detail = true
  /\ is_eligible sample_detail = true
  /\ exists payload,
       prepare_payload sample_detail = Ok (Ready (JStr "site") payload)
       /\ production_branch payload = JStr "main"
       /\ config_production_branch (config (source payload)) = JStr "main"
       /\ root_dir (build_config payload) = JStr "/"
       /\ build_command (build_config payload) = JStr "npm run build"
       /\ output_dir (build_config payload) = JStr "dist".
Proof.
  repeat (split; [reflexivity|]).
  destruct (defaults_and_pass_through sample_detail eq_refl eq_refl eq_refl)
    as (payload & Hp & Hmain & _ & Hroot & Hcmd & Hout).
  exists payload. split; [exact Hp|].
  destruct (Hmain eq_refl) as [Hb Hc].
  split; [exact Hb|]. split; [exact Hc|]. split; [exact (Hroot eq_refl)|].
  split; [exact Hcmd|exact Hout].
Defined.

(** C10.  For a named, GitHub-linked SourceProjectDetail the payload sets
    source.config.pr_comments_enabled and deployments_enabled to true and
    build_config.web_analytics_tag and web_analytics_token to null,
    whatever the detail holds. *)
Theorem payload_constants (detail : json) :
  wf_detail detail = true ->
  has_name detail = true ->
  is_eligible detail = true ->
  exists payload,
    prepare_payload detail = Ok (Ready (field (field detail "info") "name") payload)
    /\ pr_comments_enabled (config (source payload)) = JBool true
    /\ deployments_enabled (config (source payload)) = JBool true
    /\ web_analytics_tag (build_config payload) = JNull
    /\ web_analytics_token (build_config payload) = JNull.
Proof.
  intros Hwf Hn He. eexists. split.
  - exact (prepare_payload_ready detail Hwf Hn He).
  - repeat split; reflexivity.
Qed.

Lemma payload_constants_witness :
  wf_detail sample_detail = true
  /\ has_name sample_detail = true
  /\ is_eligible sample_detail = true
  /\ exists payload,
       prepare_payload sample_detail = Ok (Ready (JStr "site") payload)
       /\ pr_comments_enabled (config (source payload)) = JBool true
       /\ deployments_enabled (config (source payload)) = JBool true
       /\ web_analytics_tag (build_config payload) = JNull
       /\ web_analytics_token (build_config payload) = JNull.
Proof.
  repeat (split; [reflexivity|]).
  exact (payload_constants sample_detail eq_refl eq_refl eq_refl).
Defined.

(** ** The detail aggregator *)

Section Aggregator.
Variable World : Type.
Variable send : request -> World -> http_result * World.

Lemma classify_fails (h : http_result) :
  request_fails h = true -> exists e bound, classify h = Failed e bound.
Proof.
  unfold request_fails. destruct (classify h) as [e b|r d]; [|discriminate].
  intros _. now exists e, b.
Qed.

(** C7.  [get_vercel_project_details] returns [None] exactly when the
    core-info request fails.  When it succeeds and the two other answers
    follow the interface, the function returns a dict holding the info
    and a list under each of [env_vars] and [domains]; the list is empty
    when its request failed. *)
Theorem fetch_detail_failure_policy (api_token : string) (project_id : json)
    (s : state World) :
  let a1 := send (GetProject api_token project_id) (world s) in
  let a2 := send (GetProjectEnv api_token project_id) (snd a1) in
  let a3 := send (GetProjectDomains api_token project_id) (snd a2) in
  let result := fst (get_vercel_project_details World send api_token project_id s) in
  (result = Ok JNull <-> request_fails (fst a1) = true)
  /\ (forall r info,
        classify (fst a1) = Fetched r info ->
        facet_conforms "envs" (fst a2) = true ->
        facet_conforms "domains" (fst a3) = true ->
        exists env_vars domains,
          result = Ok (JObj [("info", info);
                             ("env_vars", JArr env_vars);
                             ("domains", JArr domains)])
          /\ (request_fails (fst a2) = true -> env_vars = [])
          /\ (request_fails (fst a3) = true -> domains = [])).
Proof.
  unfold get_vercel_project_details, bind, requests, request_fails, facet_conforms.
  destruct (send (GetProject api_token project_id) (world s)) as [h1 w1].
  cbn [fst snd world stdout].
  destruct (classify h1) as [e1 b1|r1 info] eqn:E1.
  - cbn. split; [tauto|]. intros r info H. discriminate H.
  - cbn [world stdout].
    destruct (send (GetProjectEnv api_token project_id) w1) as [h2 w2].
    cbn [fst snd world stdout].
    destruct (classify h2) as [e2 b2|r2 data2] eqn:E2.
    + cbn [print ret world stdout].
      destruct (send (GetProjectDomains api_token project_id) w2) as [h3 w3].
      cbn [fst snd world stdout].
      destruct (classify h3) as [e3 b3|r3 data3] eqn:E3.
      * cbn. split; [split; discriminate|].
        intros r i Hi _ _. injection Hi as _ <-.
        exists [], []. split; [reflexivity|]; split; intro Hf; first [reflexivity | discriminate Hf].
      * destruct data3 as [| | | | |fs3]; cbn;
          (split; [split; discriminate|]); intros r i Hi _ H3;
          try discriminate H3.
        injection Hi as _ <-.
        destruct (fields_get fs3 "domains" (JArr [])) as [| | | |dm|];
          try discriminate H3.
        exists [], dm. split; [reflexivity|]; split; intro Hf; first [reflexivity | discriminate Hf].
    + destruct data2 as [| | | | |fs2]; cbn [lift py_get fst];
        try (split; [split; discriminate|]; intros r i _ H2; discriminate H2).
      cbn [world stdout].
      destruct (send (GetProjectDomains api_token project_id) w2) as [h3 w3].
      cbn [fst snd world stdout].
      destruct (classify h3) as [e3 b3|r3 data3] eqn:E3.
      * cbn. split; [split; discriminate|].
        intros r i Hi H2 _. injection Hi as _ <-.
        destruct (fields_get fs2 "envs" (JArr [])) as [| | | |ev|];
          try discriminate H2.
        exists ev, []. split; [reflexivity|]; split; intro Hf; first [reflexivity | discriminate Hf].
      * destruct data3 as [| | | | |fs3]; cbn;
          (split; [split; discriminate|]); intros r i Hi H2 H3;
          try discriminate H3.
        injection Hi as _ <-.
        destruct (fields_get fs2 "envs" (JArr [])) as [| | | |ev|];
          try discriminate H2.
        destruct (fields_get fs3 "domains" (JArr [])) as [| | | |dm|];
          try discriminate H3.
        exists ev, dm. split; [reflexivity|]; split; intro Hf; first [reflexivity | discriminate Hf].
Qed.

End Aggregator.

Lemma fetch_detail_failure_policy_witness :
  facet_conforms "envs"
    (fst (scripted (GetProjectEnv "token" (JStr "prj_1")) (tl env_fetch_fails))) = true
  /\ request_fails
       (fst (scripted (GetProjectEnv "token" (JStr "prj_1")) (tl env_fetch_fails))) = true
  /\ facet_conforms "domains"
       (fst (scripted (GetProjectDomains "token" (JStr "prj_1"))
               (tl (tl env_fetch_fails)))) = true
  /\ exists env_vars domains,
       fst (get_vercel_project_details _ scripted "token" (JStr "prj_1")
              (start env_fetch_fails))
       = Ok (JObj [("info", field sample_detail "info");
                   ("env_vars", JArr env_vars);
                   ("domains", JArr domains)])
       /\ env_vars = [].
Proof.
  repeat (split; [reflexivity|]).
  destruct (proj2 (fetch_detail_failure_policy _ scripted "token" (JStr "prj_1")
                     (start env_fetch_fails)) _ _ eq_refl eq_refl eq_refl)
    as (env_vars & domains & Hres & Henv & _).
  exists env_vars, domains. split; [exact Hres|exact (Henv eq_refl)].
Defined.

(** ** The [response] variable in the exception handlers *)

Section Handlers.
Variable World : Type.
Variable send : request -> World -> http_result * World.

(** The handler of the lister with [response] already bound by an earlier
    iteration: it reports that response, whichever request failed. *)
Lemma lister_handler_bound (fuel : nat) (api_token : string) (u : page_url)
    (projects : list json) (r0 : response) (s : state World) :
  fst (send (GetProjects api_token u) (world s)) = ConnectionError ->
  get_vercel_projects_loop World send (S fuel) api_token (Some u) projects (Some r0) s
  = (Ok None,
     {| world := snd (send (GetProjects api_token u) (world s));
        stdout := stdout s ++ [ErrorFetchingProjects ConnectionFailed;
                               ResponseStatus (status_code r0);
                               ResponseText (text r0)] |}).
Proof.
  intro H. cbn [get_vercel_projects_loop]. unfold bind at 1, requests.
  destruct (send (GetProjects api_token u) (world s)) as [h w].
  cbn [fst snd] in *. subst h.
  cbn. now rewrite <- !app_assoc.
Qed.

(** C9.  Both handlers read [response].  When the request itself raises
    before [response] is bound - the first page request of the lister,
    the creation POST - the handler ends in an [UnboundLocalError]
    instead of returning [None]; when the failure comes with a response
    (error status, undecodable body) the handler prints that response
    and returns [None]. *)
Theorem handlers_read_unbound_response (fuel : nat) (api_token : string)
    (cf_api_token cf_account_id : string) (detail project_name : json)
    (payload : payload_t) (s : state World) :
  let page := send (GetProjects api_token FirstPage) (world s) in
  let post := send (PostPagesProject cf_api_token cf_account_id payload) (world s) in
  (fst page = ConnectionError ->
   get_vercel_projects World send (S fuel) api_token s
   = (Raise UnboundLocalError,
      {| world := snd page;
         stdout := stdout s ++ [ErrorFetchingProjects ConnectionFailed] |}))
  /\ (forall e r, classify (fst page) = Failed e (Some r) ->
      get_vercel_projects World send (S fuel) api_token s
      = (Ok None,
         {| world := snd page;
            stdout := stdout s ++ [ErrorFetchingProjects e;
                                   ResponseStatus (status_code r);
                                   ResponseText (text r)] |}))
  /\ (prepare_payload detail = Ok (Ready project_name payload) ->
      fst post = ConnectionError ->
      create_cloudflare_pages_project World send cf_api_token cf_account_id detail s
      = (Raise UnboundLocalError,
         {| world := snd post;
            stdout := stdout s ++ [AttemptingToCreate project_name;
                                   ErrorCreating project_name ConnectionFailed] |}))
  /\ (prepare_payload detail = Ok (Ready project_name payload) ->
      forall e r, classify (fst post) = Failed e (Some r) ->
      create_cloudflare_pages_project World send cf_api_token cf_account_id detail s
      = (Ok JNull,
         {| world := snd post;
            stdout := stdout s ++ [AttemptingToCreate project_name;
                                   ErrorCreating project_name e;
                                   ResponseStatus (status_code r);
                                   ResponseText (text r)] |})).
Proof.
  cbn zeta. repeat split.
  - intro H. unfold get_vercel_projects. cbn [get_vercel_projects_loop].
    unfold bind at 1, requests.
    destruct (send (GetProjects api_token FirstPage) (world s)) as [h w].
    cbn [fst snd] in *. subst h. reflexivity.
  - intros e r H. unfold get_vercel_projects. cbn [get_vercel_projects_loop].
    unfold bind at 1, requests.
    destruct (send (GetProjects api_token FirstPage) (world s)) as [h w].
    cbn [fst snd] in *. rewrite H. cbn. now rewrite <- !app_assoc.
  - intros Hp H. unfold create_cloudflare_pages_project.
    unfold bind at 1, lift. rewrite Hp.
    unfold bind at 1, print. unfold bind at 1, requests. cbn [world stdout].
    destruct (send (PostPagesProject cf_api_token cf_account_id payload) (world s))
      as [h w].
    cbn [fst snd] in *. subst h. cbn. now rewrite <- !app_assoc.
  - intros Hp e r H. unfold create_cloudflare_pages_project.
    unfold bind at 1, lift. rewrite Hp.
    unfold bind at 1, print. unfold bind at 1, requests. cbn [world stdout].
    destruct (send (PostPagesProject cf_api_token cf_account_id payload) (world s))
      as [h w].
    cbn [fst snd] in *. rewrite H. cbn. now rewrite <- !app_assoc.
Qed.

End Handlers.

Lemma handlers_read_unbound_response_witness :
  fst (scripted (GetProjects "token" FirstPage) unreachable) = ConnectionError
  /\ fst (get_vercel_projects _ scripted 1 "token" (start unreachable))
     = Raise UnboundLocalError
  /\ prepare_payload sample_detail = Ok (Ready (JStr "site") sample_payload)
  /\ fst (scripted (PostPagesProject "cf" "account" sample_payload) unreachable)
     = ConnectionError
  /\ fst (create_cloudflare_pages_project _ scripted "cf" "account"
            sample_detail (start unreachable))
     = Raise UnboundLocalError.
Proof.
  destruct (handlers_read_unbound_response _ scripted 0 "token" "cf" "account"
              sample_detail (JStr "site") sample_payload (start unreachable))
    as (Hlist & _ & Hcreate & _).
  split; [reflexivity|]. split; [exact (f_equal fst (Hlist eq_refl))|].
  split; [reflexivity|]. split; [reflexivity|].
  exact (f_equal fst (Hcreate eq_refl eq_refl)).
Defined.

(** ** The paginated lister *)

Section Lister.
Variable World : Type.
Variable send : request -> World -> http_result * World.

(** One iteration of the loop on a page request that succeeds. *)
Lemma lister_page (fuel : nat) (api_token : string) (u : page_url)
    (projects items : list json) (next : option page_url)
    (response : option response) (s : state World) :
  page_of (fst (send (GetProjects api_token u) (world s))) = Some (items, next) ->
  exists r,
    get_vercel_projects_loop World send (S fuel) api_token (Some u) projects response s
    = get_vercel_projects_loop World send fuel api_token next
        (projects ++ items)%list (Some r)
        {| world := snd (send (GetProjects api_token u) (world s));
           stdout := stdout s |}.
Proof.
  unfold page_of. cbn [get_vercel_projects_loop]. unfold bind at 1, requests.
  destruct (send (GetProjects api_token u) (world s)) as [h w].
  cbn [fst snd]. destruct (classify h) as [e b|r data]; [discriminate|].
  destruct data as [| | | | |fs]; try discriminate.
  cbn [py_get]. unfold bind at 1, lift.
  destruct (py_iter (fields_get fs "projects" (JArr []))) as [its| |];
    try discriminate.
  unfold bind at 1. unfold bind at 1.
  destruct (fields_get fs "pagination" (JObj [])) as [| | | | |pfs];
    try discriminate.
  cbn [py_get]. intro H. injection H as <- <-. now exists r.
Qed.

(** When every page request succeeds the lister returns the pages
    concatenated in the order received, and prints nothing. *)
Lemma lister_concatenates (api_token : string) (pages : list (list json))
    (w w' : World) (u : page_url) :
  listing send api_token w u pages w' ->
  forall fuel projects response out,
    (List.length pages <= fuel)%nat ->
    get_vercel_projects_loop World send fuel api_token (Some u) projects response
      {| world := w; stdout := out |}
    = (Ok (Some (projects ++ List.concat pages)%list), {| world := w'; stdout := out |}).
Proof.
  induction 1 as [w u items Hp|w w' u next items rest Hp Hrest IH];
    intros fuel projects response out Hfuel;
    (destruct fuel as [|fuel]; [cbn in Hfuel; lia|]);
    destruct (lister_page fuel api_token u projects items _ response
                {| world := w; stdout := out |} Hp) as [r ->];
    cbn [world stdout].
  - destruct fuel; cbn; now rewrite app_nil_r.
  - rewrite IH by (cbn in Hfuel; lia).
    cbn [List.concat]. now rewrite app_assoc.
Qed.

(** A failing page request after at least one response was received:
    everything fetched so far is dropped and [None] is returned. *)
Lemma lister_breaks_bound (api_token : string) (n : nat) (w : World) (u : page_url) :
  breaks send api_token n w u ->
  forall fuel projects r0 out,
    (n <= fuel)%nat ->
    fst (get_vercel_projects_loop World send fuel api_token (Some u) projects (Some r0)
           {| world := w; stdout := out |})
    = Ok None.
Proof.
  induction 1 as [w u Hf|n w u next items Hp Hrest IH];
    intros fuel projects r0 out Hfuel;
    (destruct fuel as [|fuel]; [lia|]).
  - cbn [get_vercel_projects_loop]. unfold bind at 1, requests. cbn [world stdout].
    unfold request_fails in Hf.
    destruct (send (GetProjects api_token u) w) as [h w1]. cbn [fst] in Hf.
    destruct (classify h) as [e b|r d]; [|discriminate].
    destruct b; reflexivity.
  - destruct (lister_page fuel api_token u projects items _ (Some r0)
                {| world := w; stdout := out |} Hp) as [r ->].
    cbn [world stdout]. apply IH. lia.
Qed.

(** The lister on a listing that breaks: [None], except when the very
    first request raises before [response] is bound. *)
Lemma lister_breaks (api_token : string) (n fuel : nat) (s : state World) :
  breaks send api_token n (world s) FirstPage ->
  (n <= fuel)%nat ->
  fst (get_vercel_projects World send fuel api_token s)
  = match fst (send (GetProjects api_token FirstPage) (world s)) with
    | ConnectionError => Raise UnboundLocalError
    | Response _ => Ok None
    end.
Proof.
  intros Hb Hfuel. unfold get_vercel_projects. destruct s as [w out].
  cbn [world] in *.
  inversion Hb as [w0 u0 Hf|m w0 u0 next items Hp Hrest]; subst.
  - destruct fuel as [|fuel]; [lia|].
    cbn [get_vercel_projects_loop]. unfold bind at 1, requests. cbn [world stdout].
    unfold request_fails in Hf.
    destruct (send (GetProjects api_token FirstPage) w) as [h w1]. cbn [fst] in *.
    destruct h as [|r]; [reflexivity|].
    destruct (classify (Response r)) as [e b|r' d] eqn:E; [|discriminate].
    unfold classify in E.
    destruct ((400 <=? status_code r) && (status_code r <? 600));
      [|destruct (body r)]; inversion E; subst; reflexivity.
  - destruct fuel as [|fuel]; [lia|].
    destruct (lister_page fuel api_token FirstPage [] items _ None
                {| world := w; stdout := out |} Hp) as [r ->].
    cbn [world stdout].
    rewrite (lister_breaks_bound api_token m _ next Hrest) by lia.
    unfold page_of in Hp.
    destruct (fst (send (GetProjects api_token FirstPage) w)); [discriminate|].
    reflexivity.
Qed.

End Lister.

Example two_pages_listed :
  get_vercel_projects _ scripted 2 "token" (start two_pages)
  = (Ok (Some [project "prj_1" "site"; project "prj_2" "blog"; project "prj_3" "docs"]),
     start []).
Proof. reflexivity. Qed.

Example second_page_failure_returns_none :
  get_vercel_projects _ scripted 2 "token" (start second_page_unreachable)
  = (Ok None,
     {| world := [];
        stdout := [ErrorFetchingProjects ConnectionFailed;
                   ResponseStatus 200; ResponseText "ok"] |}).
Proof. reflexivity. Qed.

(** C6 fails on the first page.  When the first page request cannot
    connect, [get_vercel_projects] does not return [None]: its handler
    reads [response] before anything was assigned to it and the function
    ends in an [UnboundLocalError]. *)
Theorem lister_first_page_failure_raises :
  get_vercel_projects _ scripted 1 "token" (start unreachable)
  = (Raise UnboundLocalError,
     {| world := []; stdout := [ErrorFetchingProjects ConnectionFailed] |}).
Proof. reflexivity. Qed.

(** ** The orchestrator *)

Lemma processed_app (out1 out2 : list msg) :
  processed (out1 ++ out2) = (processed out1 ++ processed out2)%list.
Proof.
  induction out1 as [|m out1 IH]; [reflexivity|].
  destruct m; cbn; now rewrite ?IH.
Qed.

(** The test of line 227 agrees with the eligibility of the specification
    when the link is absent or a dict ... *)
Lemma linked_via_github_eligible (detail : json) :
  link_absent_or_dict detail = true ->
  linked_via_github detail = Ok (is_eligible detail).
Proof.
  destruct detail as [| | | | |fs]; try discriminate.
  unfold link_absent_or_dict, linked_via_github, is_eligible.
  cbn [field py_get rbind].
  destruct (assoc_get String.eqb fs "info") as [info|] eqn:Einfo.
  - rewrite (fields_get_found _ _ _ (JObj []) Einfo).
    rewrite (fields_get_found _ _ _ JNull Einfo).
    destruct info as [| | | | |ifs]; try discriminate.
    cbn [field py_get rbind].
    destruct (assoc_get String.eqb ifs "link") as [l|] eqn:El.
    + rewrite (fields_get_found _ _ _ (JObj []) El).
      rewrite (fields_get_found _ _ _ JNull El).
      destruct l; try discriminate. reflexivity.
    + unfold fields_get. rewrite El. reflexivity.
  - unfold fields_get. rewrite Einfo. discriminate.
Qed.

(** ... and raises when the link is there but is not a dict. *)
Lemma linked_via_github_raises (fs ifs : list (string * json)) (l : json) :
  assoc_get String.eqb fs "info" = Some (JObj ifs) ->
  assoc_get String.eqb ifs "link" = Some l ->
  is_obj l = false ->
  linked_via_github (JObj fs) = Raise AttributeError.
Proof.
  intros Hi Hl Ho. unfold linked_via_github. cbn [py_get rbind].
  rewrite (fields_get_found _ _ _ _ Hi). cbn [py_get rbind].
  rewrite (fields_get_found _ _ _ _ Hl).
  destruct l; try discriminate; reflexivity.
Qed.

Section Orchestrator.
Variable World : Type.
Variable send : request -> World -> http_result * World.

Hypothesis answers_well_shaped :
  forall req w, well_shaped req (fst (send req w)) = true.

Lemma quietly_ret {A} (a : A) (Q : A -> Prop) :
  Q a -> quietly (World := World) (ret a) Q.
Proof. intros H s. now exists a, s. Qed.

Lemma quietly_lift {A} (a : A) (Q : A -> Prop) :
  Q a -> quietly (World := World) (lift (Ok a)) Q.
Proof. intros H s. now exists a, s. Qed.

Lemma quietly_bind {A B} (c : M World A) (k : A -> M World B)
    (Q : A -> Prop) (R : B -> Prop) :
  quietly c Q -> (forall a, Q a -> quietly (k a) R) -> quietly (bind c k) R.
Proof.
  intros Hc Hk s.
  destruct (Hc s) as (a & s1 & Ec & Hp1 & Ha).
  destruct (Hk a Ha s1) as (b & s2 & Ek & Hp2 & Hb).
  exists b, s2. unfold bind. rewrite Ec. repeat split; [exact Ek| |exact Hb].
  now rewrite Hp2.
Qed.

Lemma quietly_print (m : msg) (Q : unit -> Prop) :
  processed [m] = [] -> Q tt -> quietly (World := World) (print m) Q.
Proof.
  intros Hm HQ s. eexists. eexists. split; [reflexivity|].
  cbn [stdout]. rewrite processed_app, Hm, app_nil_r. now split.
Qed.

Lemma quietly_requests (req : request) :
  quietly (requests World send req) (fun h => well_shaped req h = true).
Proof.
  intro s. unfold requests.
  pose proof (answers_well_shaped req (world s)) as H.
  destruct (send req (world s)) as [h w]. cbn [fst] in H.
  eexists. eexists. split; [reflexivity|]. now split.
Qed.

Lemma quietly_lift_eq {A} (a : A) :
  quietly (World := World) (lift (Ok a)) (fun x => x = a).
Proof. now apply quietly_lift. Qed.

Ltac quiet_lift :=
  eapply quietly_bind; [apply quietly_lift_eq|intros ? ->].

Ltac quiet_print :=
  eapply quietly_bind with (Q := fun _ : unit => True);
  [apply quietly_print; [reflexivity|exact I]|intros _ _].

Lemma details_quiet (api_token : string) (project_id : json) :
  quietly (get_vercel_project_details World send api_token project_id)
    (fun d => d = JNull
              \/ (truthy d = true /\ wf_detail d = true
                  /\ link_absent_or_dict d = true)).
Proof.
  unfold get_vercel_project_details.
  eapply quietly_bind; [apply quietly_requests|]. intros h1 H1.
  cbn [well_shaped] in H1.
  destruct (classify h1) as [e1 b1|r1 info].
  { quiet_print. apply quietly_ret. now left. }
  destruct info as [| | | | |ifs]; try discriminate.
  eapply quietly_bind; [apply quietly_requests|]. intros h2 H2.
  cbn [well_shaped] in H2.
  eapply quietly_bind with
    (Q := fun ev => exists l, ev = JArr l /\ forallb wf_env_var l = true).
  { destruct (classify h2) as [e2 b2|r2 data].
    - quiet_print. apply quietly_ret. now exists [].
    - destruct data as [| | | | |fs]; try discriminate.
      cbn [py_get]. apply quietly_lift.
      destruct (fields_get fs "envs" (JArr [])) as [| | | |l|]; try discriminate.
      now exists l. }
  intros ev (l & -> & Hl).
  eapply quietly_bind; [apply quietly_requests|]. intros h3 H3.
  cbn [well_shaped] in H3.
  eapply quietly_bind with (Q := fun _ => True).
  { destruct (classify h3) as [e3 b3|r3 data].
    - quiet_print. now apply quietly_ret.
    - destruct data; try discriminate. cbn [py_get]. now apply quietly_lift. }
  intros dm _. apply quietly_ret. right.
  cbn. rewrite Hl. cbn.
  destruct (assoc_get String.eqb ifs "link"); auto.
Qed.

Lemma create_quiet (cf_api_token cf_account_id : string) (detail : json) :
  wf_detail detail = true ->
  is_eligible detail = true ->
  quietly (create_cloudflare_pages_project World send cf_api_token cf_account_id detail)
    (fun _ => True).
Proof.
  intros Hwf He. unfold create_cloudflare_pages_project.
  destruct (has_name detail) eqn:Hn.
  - rewrite (prepare_payload_ready detail Hwf Hn He).
    quiet_lift.
    quiet_print.
    eapply quietly_bind; [apply quietly_requests|]. intros h H.
    cbn [well_shaped] in H.
    destruct (classify h) as [e [r|]|r result]; try discriminate.
    + quiet_print. quiet_print. quiet_print. now apply quietly_ret.
    + destruct result as [| | | | |fs]; try discriminate.
      cbn [py_get].
      destruct (fields_get fs "result" (JObj [])) as [| | | | |rfs] eqn:Er;
        try discriminate.
      quiet_lift.
      cbn [py_get].
      quiet_lift.
      quiet_print.
      quiet_lift.
      cbn [py_get].
      quiet_lift.
      quiet_print. now apply quietly_lift.
  - rewrite (prepare_payload_unnamed detail Hwf Hn).
    quiet_lift.
    quiet_print. now apply quietly_ret.
Qed.

Lemma process_project_announces (vercel_token cf_token cf_account_id : string)
    (project : json) (s : state World) :
  is_obj project = true ->
  exists s',
    process_project World send vercel_token cf_token cf_account_id project s = (Ok tt, s')
    /\ processed (stdout s') = (processed (stdout s) ++ [announced project])%list.
Proof.
  destruct project as [| | | | |fs]; try discriminate. intros _.
  unfold process_project. cbn [py_get].
  set (project_id := fields_get fs "id" JNull).
  set (project_name := fields_get fs "name" JNull).
  unfold bind at 1, lift at 1. unfold bind at 1, lift at 1. cbv beta iota.
  match goal with
  | |- context [bind (print (ProcessingProject _ _)) (fun _ => ?rest)] =>
      assert (Hq : quietly (World := World) rest (fun _ => True))
  end.
  { destruct (truthy project_id); cbn [negb].
    - eapply quietly_bind; [apply details_quiet|].
      intros d [->|(Ht & Hwf & Hl)].
      + cbn [truthy]. now apply quietly_print.
      + rewrite Ht, (linked_via_github_eligible d Hl).
        quiet_lift.
        destruct (is_eligible d) eqn:He.
        * eapply quietly_bind; [now apply create_quiet|].
          intros _ _. now apply quietly_ret.
        * quiet_print. now apply quietly_print.
    - now apply quietly_print. }
  destruct (Hq {| world := world s;
                  stdout := stdout s ++ [ProcessingProject project_name project_id] |})
    as ([] & s' & Hrun & Hproc & _).
  exists s'. split.
  - unfold bind at 1, print at 1. exact Hrun.
  - rewrite Hproc. cbn [stdout]. now rewrite processed_app.
Qed.

Lemma process_projects_announces (vercel_token cf_token cf_account_id : string)
    (projects : list json) :
  forallb is_obj projects = true ->
  forall s, exists s',
    process_projects World send vercel_token cf_token cf_account_id projects s
    = (Ok tt, s')
    /\ processed (stdout s') = (processed (stdout s) ++ map announced projects)%list.
Proof.
  induction projects as [|project rest IH]; intros Hobj s.
  - exists s. cbn. now rewrite app_nil_r.
  - cbn [forallb] in Hobj. apply andb_prop in Hobj as [Hp Hrest].
    destruct (process_project_announces vercel_token cf_token cf_account_id
                project s Hp) as (s1 & E1 & P1).
    destruct (IH Hrest s1) as (s2 & E2 & P2).
    exists s2. cbn [process_projects]. unfold bind. rewrite E1. split; [exact E2|].
    rewrite P2, P1. cbn [map]. now rewrite <- app_assoc.
Qed.

End Orchestrator.

Section Bulk.
Variable World : Type.
Variable send : request -> World -> http_result * World.

(** C8, as the code has it.  In bulk mode, when the answers have the shape
    the script expects and the listing succeeds with at least one project,
    [main] runs the loop body on every listed project, in the order of the
    listing, whatever happens to each of them - details that cannot be
    fetched, a link that is not GitHub, a missing name, a creation request
    answered with an error - and ends normally after the last one with the
    closing message.  It returns nothing. *)
Theorem bulk_run_visits_every_project (fuel : nat)
    (vercel_token cf_token cf_account_id : string)
    (pages : list (list json)) (w' : World) (s : state World) :
  (forall req w, well_shaped req (fst (send req w)) = true) ->
  listing send vercel_token (world s) FirstPage pages w' ->
  (List.length pages <= fuel)%nat ->
  List.concat pages <> [] ->
  forallb is_obj (List.concat pages) = true ->
  exists s',
    main World send fuel vercel_token cf_token cf_account_id None s = (Ok tt, s')
    /\ processed (stdout s')
       = (processed (stdout s) ++ map announced (List.concat pages))%list
    /\ exists out, stdout s' = (out ++ [MigrationFinished])%list.
Proof.
  intros Hshape Hlist Hfuel Hne Hobj.
  unfold main. cbn [truthy]. unfold bind at 1, print at 1.
  unfold bind at 1, get_vercel_projects.
  rewrite (lister_concatenates World send vercel_token pages _ w' FirstPage Hlist
             fuel [] None _ Hfuel).
  cbn [app].
  destruct (List.concat pages) as [|project rest] eqn:Eps; [contradiction|].
  unfold bind at 1, print at 1. cbn [world stdout].
  destruct (process_projects_announces World send Hshape vercel_token cf_token
              cf_account_id (project :: rest) Hobj
              {| world := w';
                 stdout := (stdout s ++ [FetchingProjects])
                           ++ [FoundProjects (List.length (project :: rest))] |})
    as (s1 & E1 & P1).
  unfold bind at 1. rewrite E1.
  eexists. split; [reflexivity|]. cbn [stdout]. split.
  - rewrite processed_app, P1. cbn [stdout].
    rewrite !processed_app. cbn [processed]. now rewrite !app_nil_r.
  - now exists (stdout s1).
Qed.

End Bulk.

Lemma sample_answers_well_shaped (req : request) (w : unit) :
  well_shaped req (fst (stateless sample_answers req w)) = true.
Proof.
  destruct req as [t u|t id|t id|t id|t a p]; cbn [stateless fst sample_answers].
  - reflexivity.
  - cbn [well_shaped].
    repeat match goal with
           | |- context [eq_str id ?x] => destruct (eq_str id x)
           end; reflexivity.
  - reflexivity.
  - reflexivity.
  - cbn [well_shaped]. destruct (eq_str (name p) "site"); reflexivity.
Qed.

Lemma bulk_run_visits_every_project_witness :
  listing (stateless sample_answers) "vercel" tt FirstPage [sample_projects] tt
  /\ (List.length [sample_projects] <= 1)%nat
  /\ List.concat [sample_projects] <> []
  /\ forallb is_obj (List.concat [sample_projects]) = true
  /\ exists s',
       main _ (stateless sample_answers) 1 "vercel" "cf" "account" None (start tt)
       = (Ok tt, s')
       /\ processed (stdout s')
          = [ (JStr "site", JStr "prj_1"); (JStr "blog", JStr "prj_2");
              (JStr "gone", JStr "prj_3"); (JStr "shop", JStr "prj_4");
              (JStr "anonymous", JStr "prj_5") ]
       /\ exists out, stdout s' = (out ++ [MigrationFinished])%list.
Proof.
  assert (Hl : listing (stateless sample_answers) "vercel" tt FirstPage
                 [sample_projects] tt)
    by exact (listing_last (stateless sample_answers) "vercel" tt FirstPage
                sample_projects eq_refl).
  assert (Hne : List.concat [sample_projects] <> []) by discriminate.
  split; [exact Hl|]. split; [apply le_n|]. split; [exact Hne|].
  split; [reflexivity|].
  exact (bulk_run_visits_every_project unit (stateless sample_answers) 1
           "vercel" "cf" "account" [sample_projects] tt (start tt)
           sample_answers_well_shaped Hl (le_n 1) Hne eq_refl).
Defined.

(** The sample run, message by message. *)
Example sample_bulk_run :
  tally (stdout (snd (main _ (stateless sample_answers) 1 "vercel" "cf" "account"
                        None (start tt))))
  = {| created := 1; skipped_ineligible := 1; skipped_error := 2; failed_creation := 1 |}.
Proof. reflexivity. Qed.

(** C8 as the specification words it does not hold: [main] yields no
    summary.  A run that creates its one project and a run that skips its
    one project both return [None], and nothing read off that value can
    give the counts of both. *)
Lemma main_yields_no_summary :
  fst (main _ scripted 1 "vercel" "cf" "account" None (start created_run)) = Ok tt
  /\ fst (main _ scripted 1 "vercel" "cf" "account" None (start skipped_run)) = Ok tt
  /\ created (tally (stdout (snd (main _ scripted 1 "vercel" "cf" "account" None
                                    (start created_run))))) = 1%nat
  /\ created (tally (stdout (snd (main _ scripted 1 "vercel" "cf" "account" None
                                    (start skipped_run))))) = 0%nat
  /\ ~ yields_summary scripted.
Proof.
  repeat (split; [reflexivity|]).
  intros [summary_of H].
  pose proof (H 1%nat "vercel" "cf" "account" created_run) as Hc.
  pose proof (H 1%nat "vercel" "cf" "account" skipped_run) as Hs.
  cbv zeta in Hc, Hs.
  change (fst (main _ scripted 1 "vercel" "cf" "account" None (start created_run)))
    with (@Ok unit tt) in Hc.
  change (fst (main _ scripted 1 "vercel" "cf" "account" None (start skipped_run)))
    with (@Ok unit tt) in Hs.
  rewrite Hc in Hs. apply (f_equal created) in Hs. discriminate Hs.
Qed.

(** ** Eligibility in bulk mode *)

(** C2 fails on a null link.  In a bulk run, a project whose info carries
    [link: null] is not skipped: the test of line 227 raises an
    [AttributeError] and the run ends there, with the next project never
    looked at.  [create_cloudflare_pages_project], given the same details,
    does treat the project as not linked to GitHub and skips it. *)
Theorem null_link_aborts_bulk_run :
  main _ scripted 1 "vercel" "cf" "account" None (start null_link_run)
  = (Raise AttributeError,
     {| world := skipn 4 null_link_run;
        stdout := [FetchingProjects; FoundProjects 2;
                   ProcessingProject (JStr "site") (JStr "prj_1")] |})
  /\ linked_via_github null_link_detail = Raise AttributeError
  /\ create_cloudflare_pages_project _ scripted "cf" "account" null_link_detail (start [])
     = (Ok JNull,
        {| world := [];
           stdout := [SkippingNotGithub (JStr "site"); PagesSupportsGitOrUpload;
                      ManualMigrationNeeded] |}).
Proof. repeat split. Qed.

(** * Further properties of the script *)

(** ** [get_vercel_projects] *)

Section ListerBehaviour.
Variable World : Type.
Variable send : request -> World -> http_result * World.

(** X1.  When every page request succeeds and the last page carries no
    cursor, [get_vercel_projects] returns the projects of all pages, in the
    order the pages were received, and prints nothing. *)
Theorem lister_returns_concatenation (fuel : nat) (api_token : string)
    (pages : list (list json)) (w' : World) (s : state World) :
  listing send api_token (world s) FirstPage pages w' ->
  (List.length pages <= fuel)%nat ->
  get_vercel_projects World send fuel api_token s
  = (Ok (Some (List.concat pages)), {| world := w'; stdout := stdout s |}).
Proof.
  intros Hl Hfuel. destruct s as [w out]. unfold get_vercel_projects.
  exact (lister_concatenates World send api_token pages w w' FirstPage Hl
           fuel [] None out Hfuel).
Qed.

(** X2.  When a page request fails after the first request got a
    response, [get_vercel_projects] returns [None]: the pages fetched
    before the failure are dropped. *)
Theorem lister_drops_fetched_pages (n fuel : nat) (api_token : string)
    (r : response) (s : state World) :
  breaks send api_token n (world s) FirstPage ->
  (n <= fuel)%nat ->
  fst (send (GetProjects api_token FirstPage) (world s)) = Response r ->
  fst (get_vercel_projects World send fuel api_token s) = Ok None.
Proof.
  intros Hb Hfuel Hr.
  rewrite (lister_breaks World send api_token n fuel s Hb Hfuel).
  now rewrite Hr.
Qed.

(** X3.  When the second page request cannot connect, the handler prints
    the status and text of the first page's response - the last value of
    [response] - and the lister returns [None]. *)
Theorem lister_reports_previous_response (fuel : nat) (api_token : string)
    (r : response) (data : json) (items : list json) (next : page_url)
    (s : state World) :
  let a1 := send (GetProjects api_token FirstPage) (world s) in
  let a2 := send (GetProjects api_token next) (snd a1) in
  classify (fst a1) = Fetched r data ->
  page_of (fst a1) = Some (items, Some next) ->
  fst a2 = ConnectionError ->
  get_vercel_projects World send (S (S fuel)) api_token s
  = (Ok None,
     {| world := snd a2;
        stdout := stdout s ++ [ErrorFetchingProjects ConnectionFailed;
                               ResponseStatus (status_code r);
                               ResponseText (text r)] |}).
Proof.
  cbn zeta. unfold page_of, get_vercel_projects.
  cbn [get_vercel_projects_loop]. unfold bind at 1, requests at 1.
  destruct (send (GetProjects api_token FirstPage) (world s)) as [h1 w1].
  cbn [fst snd]. intros Hc. rewrite Hc.
  destruct data as [| | | | |fs]; try discriminate.
  cbn [py_get]. unfold bind at 1, lift at 1.
  destruct (py_iter (fields_get fs "projects" (JArr []))) as [its| |];
    try discriminate.
  unfold bind at 1, lift at 1. unfold bind at 1, lift at 1.
  destruct (fields_get fs "pagination" (JObj [])) as [| | | | |pfs];
    try discriminate.
  cbn [py_get]. unfold bind at 1, lift at 1.
  intro Hp. injection Hp as _ Hn.
  destruct (truthy (fields_get pfs "next" JNull)); [|discriminate].
  injection Hn as <-. intro H2.
  unfold bind at 1, requests at 1. cbn [world stdout].
  destruct (send (GetProjects api_token (Until (fields_get pfs "next" JNull))) w1)
    as [h2 w2].
  cbn [fst snd] in *. subst h2. cbn. now rewrite <- !app_assoc.
Qed.

(** X4.  The loop has no bound on the number of pages: against a platform
    whose every page carries a cursor the lister never returns, whatever
    the fuel. *)
Theorem lister_follows_cursors_forever (api_token : string) :
  (forall u w, exists items next,
      page_of (fst (send (GetProjects api_token u) w)) = Some (items, Some next)) ->
  forall fuel s,
    fst (get_vercel_projects World send fuel api_token s) = OutOfFuel.
Proof.
  intros Hpage fuel s. unfold get_vercel_projects.
  generalize FirstPage, (@nil json), (@None response), s.
  induction fuel as [|fuel IH]; intros u projects resp s0.
  - reflexivity.
  - destruct (Hpage u (world s0)) as (items & next & Hp).
    destruct (lister_page World send fuel api_token u projects items _ resp s0 Hp)
      as [r ->].
    apply IH.
Qed.

(** X5.  A bulk run whose listing holds no project, and a bulk run whose
    listing is refused, both end with the same "failed or no projects"
    message: no project is processed and the closing message is not
    printed. *)
Theorem bulk_run_without_projects (fuel : nat)
    (vercel_token cf_token cf_account_id : string) (s : state World) :
  (forall pages w',
      listing send vercel_token (world s) FirstPage pages w' ->
      (List.length pages <= fuel)%nat ->
      List.concat pages = [] ->
      main World send fuel vercel_token cf_token cf_account_id None s
      = (Ok tt, {| world := w';
                   stdout := stdout s ++ [FetchingProjects; FailedOrNoProjects] |}))
  /\ (forall e r,
      classify (fst (send (GetProjects vercel_token FirstPage) (world s)))
      = Failed e (Some r) ->
      main World send (S fuel) vercel_token cf_token cf_account_id None s
      = (Ok tt, {| world := snd (send (GetProjects vercel_token FirstPage) (world s));
                   stdout := stdout s ++ [FetchingProjects;
                                          ErrorFetchingProjects e;
                                          ResponseStatus (status_code r);
                                          ResponseText (text r);
                                          FailedOrNoProjects] |})).
Proof.
  split.
  - intros pages w' Hl Hfuel Hempty.
    unfold main. cbn [truthy]. unfold bind at 1, print at 1.
    unfold bind at 1.
    unfold get_vercel_projects.
    rewrite (lister_concatenates World send vercel_token pages _ w' FirstPage Hl
               fuel [] None _ Hfuel).
    cbn [app].
    rewrite Hempty. unfold print. cbn [world stdout]. now rewrite <- app_assoc.
  - intros e r Hc.
    unfold main. cbn [truthy]. unfold bind at 1, print at 1.
    unfold bind at 1, get_vercel_projects.
    cbn [get_vercel_projects_loop]. unfold bind at 1, requests at 1.
    cbn [world stdout].
    destruct (send (GetProjects vercel_token FirstPage) (world s)) as [h w].
    cbn [fst snd] in *. rewrite Hc. cbn. unfold print. cbn [world stdout].
    now rewrite <- !app_assoc.
Qed.

End ListerBehaviour.

Lemma lister_returns_concatenation_witness :
  listing scripted "token" two_pages FirstPage
    [[project "prj_1" "site"; project "prj_2" "blog"]; [project "prj_3" "docs"]] []
  /\ get_vercel_projects _ scripted 2 "token" (start two_pages)
     = (Ok (Some [project "prj_1" "site"; project "prj_2" "blog"; project "prj_3" "docs"]),
        start []).
Proof.
  assert (Hl : listing scripted "token" two_pages FirstPage
                 [[project "prj_1" "site"; project "prj_2" "blog"];
                  [project "prj_3" "docs"]] []).
  { apply (listing_more scripted "token" two_pages [] FirstPage
             (Until (JNum 1700000000)) _ _ eq_refl).
    exact (listing_last scripted "token" (tl two_pages) (Until (JNum 1700000000))
             _ eq_refl). }
  split; [exact Hl|].
  exact (lister_returns_concatenation _ scripted 2 "token" _ [] (start two_pages)
           Hl (le_n 2)).
Defined.

Lemma lister_drops_fetched_pages_witness :
  breaks scripted "token" 2 second_page_unreachable FirstPage
  /\ fst (get_vercel_projects _ scripted 2 "token" (start second_page_unreachable))
     = Ok None.
Proof.
  assert (Hb : breaks scripted "token" 2 second_page_unreachable FirstPage).
  { apply (breaks_later scripted "token" 1 second_page_unreachable FirstPage
             (Until (JNum 1700000000)) [project "prj_1" "site"] eq_refl).
    exact (breaks_here scripted "token" (tl second_page_unreachable)
             (Until (JNum 1700000000)) eq_refl). }
  split; [exact Hb|].
  exact (lister_drops_fetched_pages _ scripted 2 2 "token" _
           (start second_page_unreachable) Hb (le_n 2) eq_refl).
Defined.

Lemma lister_reports_previous_response_witness :
  get_vercel_projects _ scripted 2 "token" (start second_page_unreachable)
  = (Ok None,
     {| world := [];
        stdout := [ErrorFetchingProjects ConnectionFailed;
                   ResponseStatus 200; ResponseText "ok"] |}).
Proof.
  exact (lister_reports_previous_response _ scripted 0 "token" _ _ _ _
           (start second_page_unreachable) eq_refl eq_refl eq_refl).
Defined.

Lemma lister_follows_cursors_forever_witness :
  fst (get_vercel_projects _ (stateless endless_answers) 50 "token" (start tt))
  = OutOfFuel.
Proof.
  apply (lister_follows_cursors_forever unit (stateless endless_answers) "token").
  intros u w. eexists. eexists. reflexivity.
Defined.

Lemma bulk_run_without_projects_witness :
  main _ scripted 2 "vercel" "cf" "account" None (start empty_listing)
  = (Ok tt, {| world := []; stdout := [FetchingProjects; FailedOrNoProjects] |})
  /\ main _ scripted 2 "vercel" "cf" "account" None (start listing_refused)
     = (Ok tt, {| world := [];
                  stdout := [FetchingProjects;
                             ErrorFetchingProjects (HTTPError 500);
                             ResponseStatus 500; ResponseText "error";
                             FailedOrNoProjects] |}).
Proof.
  split.
  - refine (proj1 (bulk_run_without_projects _ scripted 2 "vercel" "cf" "account"
                     (start empty_listing)) [[]; []] [] _ _ eq_refl).
    + apply (listing_more scripted "vercel" empty_listing [] FirstPage
               (Until (JStr "cursor")) [] [[]] eq_refl).
      exact (listing_last scripted "vercel" (tl empty_listing)
               (Until (JStr "cursor")) [] eq_refl).
    + apply le_n.
  - exact (proj2 (bulk_run_without_projects _ scripted 1 "vercel" "cf" "account"
                    (start listing_refused)) _ _ eq_refl).
Defined.

(** ** [create_cloudflare_pages_project] before the request *)

(** X6.  The name is checked before anything else: a detail whose info has
    no name ends with the missing-name return whatever its variables and
    its link look like, malformed ones included. *)
Theorem missing_name_is_checked_first (fs : list (string * json)) :
  is_obj (fields_get fs "info" (JObj [])) = true ->
  has_name (JObj fs) = false ->
  prepare_payload (JObj fs) = Ok MissingName.
Proof.
  unfold has_name, prepare_payload. cbn [field py_get rbind].
  intros Hinfo Hname.
  destruct (assoc_get String.eqb fs "info") as [info|] eqn:Einfo.
  - rewrite (fields_get_found _ _ _ (JObj []) Einfo) in *.
    rewrite (fields_get_found _ _ _ JNull Einfo) in *.
    destruct info as [| | | | |ifs]; try discriminate.
    cbn [field py_get rbind] in *. now rewrite Hname.
  - unfold fields_get. rewrite Einfo. reflexivity.
Qed.

Lemma missing_name_is_checked_first_witness :
  wf_detail malformed_unnamed_detail = false
  /\ prepare_payload malformed_unnamed_detail = Ok MissingName.
Proof.
  split; [reflexivity|].
  apply missing_name_is_checked_first; reflexivity.
Defined.

(** X7.  With a name, the link decides after the variables were mapped: a
    falsy link (absent, null, empty) means "not linked to GitHub", a link
    that is truthy but not a dict makes line 145 raise an
    [AttributeError]. *)
Theorem link_shapes (detail : json) :
  wf_detail detail = true ->
  has_name detail = true ->
  let link := field (field detail "info") "link" in
  (truthy link = false ->
   prepare_payload detail = Ok (NotGithub (field (field detail "info") "name")))
  /\ (truthy link = true -> is_obj link = false ->
      prepare_payload detail = Raise AttributeError).
Proof.
  destruct detail as [| | | | |fs]; try discriminate.
  unfold wf_detail, has_name, prepare_payload.
  cbn [field py_get rbind env_vars_of].
  intros Hwf Hname.
  apply andb_prop in Hwf as [Hwf Hvars]. apply andb_prop in Hwf as [Hinfo Hlist].
  destruct (assoc_get String.eqb fs "info") as [info|] eqn:Einfo;
    [|unfold fields_get in Hname; rewrite Einfo in Hname; discriminate].
  rewrite (fields_get_found _ _ _ (JObj []) Einfo) in *.
  rewrite (fields_get_found _ _ _ JNull Einfo) in *.
  destruct info as [| | | | |ifs]; try discriminate.
  cbn [field py_get rbind] in *.
  rewrite Hname. cbn [negb].
  destruct (fields_get fs "env_vars" (JArr [])) as [| | | |vars|]; try discriminate.
  cbn [py_iter rbind].
  rewrite (env_loop_fold _ _ _ Hvars). cbn [rbind fst snd].
  split.
  - intros ->. reflexivity.
  - intros -> Ho. cbn [negb].
    destruct (fields_get ifs "link" JNull); try discriminate; reflexivity.
Qed.

Lemma link_shapes_witness :
  prepare_payload null_link_detail = Ok (NotGithub (JStr "site"))
  /\ prepare_payload string_link_detail = Raise AttributeError.
Proof.
  split.
  - exact (proj1 (link_shapes null_link_detail eq_refl eq_refl) eq_refl).
  - exact (proj2 (link_shapes string_link_detail eq_refl eq_refl) eq_refl eq_refl).
Defined.

(** X8.  What one entry of [env_vars] can do to the loop of lines 124-140:
    an entry that is not a dict raises an [AttributeError]; a dict without
    a key or without a value is passed over, whatever its target; with
    both, a target that is null, a number or a boolean raises a
    [TypeError], and so does a key that is a list or a dict as soon as the
    target names production or preview. *)
Theorem env_step_edge_cases (acc : pydict * pydict) (var : json) :
  (is_obj var = false -> env_step acc var = Raise AttributeError)
  /\ (is_obj var = true ->
      truthy (field var "key") && truthy (field var "value") = false ->
      env_step acc var = Ok acc)
  /\ (is_obj var = true ->
      truthy (field var "key") && truthy (field var "value") = true ->
      match var with
      | JObj fs =>
          match fields_get fs "target" (JArr []) with
          | JNull | JBool _ | JNum _ => env_step acc var = Raise TypeError
          | JArr l =>
              hashable (field var "key") = false ->
              env_step acc var
              = if existsb (fun e => eq_str e "production") l
                   || existsb (fun e => eq_str e "preview") l
                then Raise TypeError else Ok acc
          | _ => True
          end
      | _ => True
      end).
Proof.
  destruct var as [| | | | |fs]; cbn [is_obj];
    (split; [|split]); try discriminate; try reflexivity.
  - intros _ H. unfold env_step. cbn [py_get rbind field] in *. now rewrite H.
  - intros _ H. unfold env_step. cbn [py_get rbind field] in *. rewrite H.
    destruct (fields_get fs "target" (JArr [])) as [| | | |l|]; try exact I;
      try reflexivity.
    intro Hk. cbn [py_in rbind]. unfold py_setitem.
    destruct (fields_get fs "key" JNull); try discriminate Hk;
      cbn [py_hash rbind];
      destruct (existsb (fun e => eq_str e "production") l);
      destruct (existsb (fun e => eq_str e "preview") l);
      try reflexivity; now destruct acc.
Qed.

(** X9.  One variable with a key, a value and [target: null] is enough to
    stop the whole project: lines 91-173 raise a [TypeError] - before the
    link is looked at and before any request - even though the variables
    in front of it are fine. *)
Theorem null_target_stops_project (fs ifs vfs : list (string * json))
    (before after : list json) :
  fields_get fs "info" (JObj []) = JObj ifs ->
  truthy (fields_get ifs "name" JNull) = true ->
  fields_get fs "env_vars" (JArr []) = JArr (before ++ JObj vfs :: after) ->
  forallb wf_env_var before = true ->
  truthy (fields_get vfs "key" JNull) && truthy (fields_get vfs "value" JNull) = true ->
  fields_get vfs "target" (JArr []) = JNull ->
  prepare_payload (JObj fs) = Raise TypeError.
Proof.
  intros Hinfo Hname Hvars Hbefore Hkv Htarget.
  unfold prepare_payload. cbn [py_get rbind].
  rewrite Hinfo. cbn [py_get rbind]. rewrite Hname. cbn [negb].
  rewrite Hvars. cbn [py_iter rbind].
  assert (Hloop : forall l acc, forallb wf_env_var l = true ->
            env_loop acc (l ++ JObj vfs :: after) = Raise TypeError).
  { induction l as [|v l IH]; intros [prod prev] Hl.
    - cbn [app env_loop]. unfold env_step. cbn [py_get rbind].
      rewrite Hkv, Htarget. reflexivity.
    - cbn [forallb] in Hl. apply andb_prop in Hl as [Hv Hl].
      cbn [app env_loop]. rewrite (env_step_fan_step _ _ _ Hv). cbn [rbind].
      now apply IH. }
  now rewrite Hloop.
Qed.

Lemma null_target_stops_project_witness :
  prepare_payload null_target_detail = Raise TypeError.
Proof.
  eapply null_target_stops_project
    with (before := [env_var "API_URL" "https://example" ["production"]])
         (after := [env_var "DEBUG" "1" ["preview"]]); reflexivity.
Defined.

Lemma env_step_edge_cases_witness :
  env_step ([], []) (JNum 3) = Raise AttributeError
  /\ env_step ([], []) (env_var "EMPTY" "" ["production"; "preview"]) = Ok ([], [])
  /\ env_step ([], []) null_target_var = Raise TypeError.
Proof.
  split; [|split].
  - exact (proj1 (env_step_edge_cases ([], []) (JNum 3)) eq_refl).
  - exact (proj1 (proj2 (env_step_edge_cases ([], [])
                           (env_var "EMPTY" "" ["production"; "preview"])))
             eq_refl eq_refl).
  - exact (proj2 (proj2 (env_step_edge_cases ([], []) null_target_var))
             eq_refl eq_refl).
Defined.

(** ** The environment maps of the payload *)

Lemma dict_set_keys (d : pydict) (k : pykey) (v : json) :
  map fst (dict_set d k v)
  = if existsb (fun kv => pykey_eqb (fst kv) k) d
    then map fst d else (map fst d ++ [k])%list.
Proof.
  unfold dict_set. induction d as [|[k0 v0] d IH]; [reflexivity|].
  cbn [assoc_set existsb fst]. destruct (pykey_eqb k0 k); [reflexivity|].
  cbn [map fst orb]. rewrite IH.
  now destruct (existsb (fun kv => pykey_eqb (fst kv) k) d).
Qed.

Lemma dict_set_nodup (d : pydict) (k : pykey) (v : json) :
  NoDup (map fst d) -> NoDup (map fst (dict_set d k v)).
Proof.
  intro Hd. rewrite dict_set_keys.
  destruct (existsb (fun kv => pykey_eqb (fst kv) k) d) eqn:E; [exact Hd|].
  apply NoDup_app; [exact Hd|repeat constructor; intros []|].
  intros k' Hin [Hk'|[]]. subst k'.
  apply in_map_iff in Hin as ([k0 v0] & Hk & Hin). cbn in Hk. subst k0.
  assert (existsb (fun kv => pykey_eqb (fst kv) k) d = true) as Ht.
  { apply existsb_exists. exists (k, v0). split; [exact Hin|apply pykey_eqb_refl]. }
  rewrite Ht in E. discriminate.
Qed.

Lemma fold_fan_step_nodup (scope : string) (vars : list json) :
  forall m, NoDup (map fst m) -> NoDup (map fst (fold_left (fan_step scope) vars m)).
Proof.
  induction vars as [|var vars IH]; intros m Hm; [exact Hm|].
  cbn [fold_left]. apply IH. unfold fan_step.
  destruct (contribution scope var) as [[k v]|]; [|exact Hm].
  now apply dict_set_nodup.
Qed.

Lemma last_write_sound (scope : string) (k : pykey) (v : json) (vars : list json) :
  last_write scope k vars = Some v ->
  exists var, In var vars /\ contribution scope var = Some (k, v).
Proof.
  induction vars as [|var vars IH]; [discriminate|].
  cbn [last_write].
  destruct (last_write scope k vars) as [v'|].
  - intro H. injection H as ->. destruct (IH eq_refl) as (x & Hin & Hc).
    exists x. split; [now right|exact Hc].
  - destruct (contribution scope var) as [[k' v']|] eqn:Ec; [|discriminate].
    destruct (pykey_eqb k' k) eqn:Ek; [|discriminate].
    intro H. injection H as ->. apply pykey_eqb_eq in Ek. subst k'.
    exists var. split; [now left|exact Ec].
Qed.

Lemma contribution_inv (scope : string) (var : json) (k : pykey) (v : json) :
  contribution scope var = Some (k, v) ->
  truthy (field var "key") = true
  /\ truthy (field var "value") = true
  /\ in_scopes scope var = true
  /\ py_hash (field var "key") = Ok k
  /\ field var "value" = v.
Proof.
  unfold contribution.
  destruct (truthy (field var "key")); [|discriminate].
  destruct (truthy (field var "value")); [|discriminate].
  destruct (in_scopes scope var); [|discriminate].
  cbn [andb].
  destruct (py_hash (field var "key")) as [k'| |]; try discriminate.
  intro H. injection H as -> ->. repeat split; reflexivity.
Qed.

(** X10.  In each environment map of the payload every key occurs once. *)
Theorem env_maps_have_distinct_keys (detail : json) :
  wf_detail detail = true ->
  has_name detail = true ->
  is_eligible detail = true ->
  exists payload,
    prepare_payload detail = Ok (Ready (field (field detail "info") "name") payload)
    /\ NoDup (map fst (production_environment_variables (deployment_configs payload)))
    /\ NoDup (map fst (preview_environment_variables (deployment_configs payload))).
Proof.
  intros Hwf Hn He. eexists. split.
  - exact (prepare_payload_ready detail Hwf Hn He).
  - cbn [deployment_configs production_environment_variables
         preview_environment_variables].
    split; apply fold_fan_step_nodup; constructor.
Qed.

Lemma env_maps_have_distinct_keys_witness :
  wf_detail sample_detail = true
  /\ has_name sample_detail = true
  /\ is_eligible sample_detail = true
  /\ exists payload,
       prepare_payload sample_detail = Ok (Ready (JStr "site") payload)
       /\ NoDup (map fst (production_environment_variables (deployment_configs payload)))
       /\ NoDup (map fst (preview_environment_variables (deployment_configs payload))).
Proof.
  repeat (split; [reflexivity|]).
  exact (env_maps_have_distinct_keys sample_detail eq_refl eq_refl eq_refl).
Defined.

(** X11.  The environment maps hold nothing the project did not have:
    every binding [k -> v] of the production map (of the preview map) is
    the key and the value of some variable of the detail whose key and
    value are non-empty and whose target lists production (preview).  So
    no empty value and no variable scoped to development only is ever
    sent. *)
Theorem env_maps_come_from_variables (detail : json) :
  wf_detail detail = true ->
  has_name detail = true ->
  is_eligible detail = true ->
  exists payload,
    prepare_payload detail = Ok (Ready (field (field detail "info") "name") payload)
    /\ forall scope m k v,
         (scope = "production"
          /\ m = production_environment_variables (deployment_configs payload))
         \/ (scope = "preview"
             /\ m = preview_environment_variables (deployment_configs payload)) ->
         dict_get m k = Some v ->
         exists var,
           In var (env_vars_of detail)
           /\ py_hash (field var "key") = Ok k
           /\ field var "value" = v
           /\ truthy (field var "key") = true
           /\ truthy v = true
           /\ in_scopes scope var = true.
Proof.
  intros Hwf Hn He. eexists. split.
  - exact (prepare_payload_ready detail Hwf Hn He).
  - cbn [deployment_configs production_environment_variables
         preview_environment_variables].
    intros scope m k v Hm Hget.
    assert (Hlw : last_write scope k (env_vars_of detail) = Some v).
    { destruct Hm as [[-> ->]|[-> ->]];
        rewrite fold_fan_step_lookup in Hget;
        destruct (last_write _ k (env_vars_of detail)); (exact Hget || discriminate). }
    destruct (last_write_sound _ _ _ _ Hlw) as (var & Hin & Hc).
    destruct (contribution_inv _ _ _ _ Hc) as (Hk & Hv & Hs & Hh & Hval).
    exists var. subst v. repeat split; assumption.
Qed.

Lemma env_maps_come_from_variables_witness :
  wf_detail sample_detail = true
  /\ has_name sample_detail = true
  /\ is_eligible sample_detail = true
  /\ exists var,
       In var sample_env_vars
       /\ field var "key" = JStr "API_URL"
       /\ field var "value" = JStr "https://staging.example"
       /\ in_scopes "preview" var = true.
Proof.
  repeat (split; [reflexivity|]).
  destruct (env_maps_come_from_variables sample_detail eq_refl eq_refl eq_refl)
    as (payload & Hp & Hfrom).
  injection Hp as <-.
  destruct (Hfrom "preview" _ (KStr "API_URL") (JStr "https://staging.example")
              (or_intror (conj eq_refl eq_refl)) eq_refl)
    as (var & Hin & Hh & Hval & _ & _ & Hs).
  exists var. split; [exact Hin|]. split; [|split; [exact Hval|exact Hs]].
  destruct (field var "key"); try discriminate Hh; cbn in Hh;
    try (destruct b; discriminate Hh).
  now injection Hh as ->.
Defined.

(** ** What the mapping does not look at *)

Lemma fields_get_set_other (fs : list (string * json)) (k k' : string) (v d : json) :
  (k =? k')%string = false ->
  fields_get (assoc_set String.eqb fs k v) k' d = fields_get fs k' d.
Proof.
  intro Hk. unfold fields_get.
  induction fs as [|[k0 v0] fs IH]; cbn [assoc_set assoc_get].
  - now rewrite Hk.
  - destruct (k0 =? k)%string eqn:E0; cbn [assoc_get].
    + apply String.eqb_eq in E0. subst k0. now rewrite Hk.
    + destruct (k0 =? k')%string; [reflexivity|exact IH].
Qed.

(** X12.  The [type] of a variable (plain, encrypted, secret) plays no
    part: giving the variables any other type leaves the outcome of the
    loop of lines 124-140 - both maps, or the exception - unchanged. *)
Theorem variable_type_is_ignored (t : json) (vars : list json) :
  forall acc, env_loop acc (map (retype t) vars) = env_loop acc vars.
Proof.
  assert (Hstep : forall acc var, env_step acc (retype t var) = env_step acc var).
  { intros acc [| | | | |fs]; try reflexivity.
    unfold retype, env_step. cbn [py_get rbind].
    now rewrite !fields_get_set_other by reflexivity. }
  induction vars as [|var vars IH]; intro acc; [reflexivity|].
  cbn [map env_loop]. rewrite Hstep.
  destruct (env_step acc var); cbn [rbind]; [apply IH|reflexivity|reflexivity].
Qed.

(** X13.  Custom domains are not migrated: whatever is stored under
    [domains] in the details, lines 91-173 give the same result. *)
Theorem domains_are_ignored (fs : list (string * json)) (domains : json) :
  prepare_payload (JObj (assoc_set String.eqb fs "domains" domains))
  = prepare_payload (JObj fs).
Proof.
  unfold prepare_payload. cbn [py_get rbind].
  now rewrite !fields_get_set_other by reflexivity.
Qed.

(** ** [get_vercel_project_details] and answers that are not objects *)

Section AggregatorEdges.
Variable World : Type.
Variable send : request -> World -> http_result * World.

(** X14.  Only request failures are caught.  When the info arrives and the
    variables answer decodes to JSON that is not an object, the function
    raises an [AttributeError] without asking for the domains; when the
    variables are fine (or failed) and the domains answer is not an
    object, it raises as well, and the collected info and variables are
    lost. *)
Theorem aggregator_raises_on_non_object (api_token : string) (project_id : json)
    (s : state World) :
  let a1 := send (GetProject api_token project_id) (world s) in
  let a2 := send (GetProjectEnv api_token project_id) (snd a1) in
  let a3 := send (GetProjectDomains api_token project_id) (snd a2) in
  let run := get_vercel_project_details World send api_token project_id s in
  request_fails (fst a1) = false ->
  (forall r data,
      classify (fst a2) = Fetched r data -> is_obj data = false ->
      run = (Raise AttributeError, {| world := snd a2; stdout := stdout s |}))
  /\ (forall r data,
      facet_conforms "envs" (fst a2) = true ->
      classify (fst a3) = Fetched r data -> is_obj data = false ->
      fst run = Raise AttributeError /\ world (snd run) = snd a3).
Proof.
  cbn zeta.
  unfold get_vercel_project_details, bind, requests, request_fails, facet_conforms.
  destruct (send (GetProject api_token project_id) (world s)) as [h1 w1].
  cbn [fst snd world stdout].
  destruct (classify h1) as [e1 b1|r1 info]; [discriminate|]. intros _.
  cbn [world stdout].
  destruct (send (GetProjectEnv api_token project_id) w1) as [h2 w2].
  cbn [fst snd world stdout].
  split.
  - intros r data Hc Ho. rewrite Hc.
    destruct data; try discriminate Ho; reflexivity.
  - intros r data H2 H3 Ho.
    destruct (classify h2) as [e2 b2|r2 data2].
    + cbn [print ret world stdout].
      destruct (send (GetProjectDomains api_token project_id) w2) as [h3 w3].
      cbn [fst snd world stdout] in *. rewrite H3.
      destruct data; try discriminate Ho; split; reflexivity.
    + destruct data2 as [| | | | |fs2]; try discriminate H2.
      cbn [py_get lift world stdout].
      destruct (send (GetProjectDomains api_token project_id) w2) as [h3 w3].
      cbn [fst snd world stdout] in *. rewrite H3.
      destruct data; try discriminate Ho; split; reflexivity.
Qed.

End AggregatorEdges.

Lemma aggregator_raises_on_non_object_witness :
  get_vercel_project_details _ scripted "token" (JStr "prj_1") (start envs_as_array)
  = (Raise AttributeError,
     {| world := [ok_response (JObj [("domains", JArr [])])]; stdout := [] |})
  /\ fst (get_vercel_project_details _ scripted "token" (JStr "prj_1")
            (start domains_as_array))
     = Raise AttributeError.
Proof.
  split.
  - exact (proj1 (aggregator_raises_on_non_object _ scripted "token" (JStr "prj_1")
                    (start envs_as_array) eq_refl) _ _ eq_refl eq_refl).
  - exact (proj1 (proj2 (aggregator_raises_on_non_object _ scripted "token"
                           (JStr "prj_1") (start domains_as_array) eq_refl)
                    _ _ eq_refl eq_refl eq_refl)).
Defined.

(** ** [create_cloudflare_pages_project]: the request and what comes back *)

Section Creator.
Variable World : Type.
Variable send : request -> World -> http_result * World.

(** X15.  A project without a name, or whose link is not a GitHub link,
    never reaches the target platform: the function prints its reason and
    returns [None] without sending anything. *)
Theorem skipped_projects_send_nothing (cf_api_token cf_account_id : string)
    (detail : json) (s : state World) :
  wf_detail detail = true ->
  wf_link detail = true ->
  has_name detail && is_eligible detail = false ->
  create_cloudflare_pages_project World send cf_api_token cf_account_id detail s
  = (Ok JNull,
     {| world := world s;
        stdout := stdout s
                  ++ (if has_name detail
                      then [SkippingNotGithub (field (field detail "info") "name");
                            PagesSupportsGitOrUpload; ManualMigrationNeeded]
                      else [SkippingMissingName]) |}).
Proof.
  intros Hwf Hl H. unfold create_cloudflare_pages_project.
  destruct (has_name detail) eqn:Hn.
  - cbn [andb] in H.
    unfold bind at 1, lift at 1.
    rewrite (prepare_payload_not_github detail Hwf Hn H Hl).
    cbn. now rewrite <- !app_assoc.
  - unfold bind at 1, lift at 1.
    rewrite (prepare_payload_unnamed detail Hwf Hn). reflexivity.
Qed.

(** X16.  When the creation request is answered with a JSON object, the
    function prints the name and subdomain found under [result] and
    returns what is under [result]: [None] when the answer has no
    [result], although the project was created.  When [result] is there
    but is not a dict (null, say), it raises an [AttributeError]. *)
Theorem creation_result (cf_api_token cf_account_id : string)
    (detail project_name : json) (payload : payload_t)
    (r : response) (fs : list (string * json)) (s : state World) :
  let post := send (PostPagesProject cf_api_token cf_account_id payload) (world s) in
  let run := create_cloudflare_pages_project World send cf_api_token cf_account_id
               detail s in
  prepare_payload detail = Ok (Ready project_name payload) ->
  classify (fst post) = Fetched r (JObj fs) ->
  (is_obj (fields_get fs "result" (JObj [])) = true ->
   run = (Ok (fields_get fs "result" JNull),
          {| world := snd post;
             stdout := stdout s
                       ++ [AttemptingToCreate project_name;
                           SuccessfullyCreated
                             (field (fields_get fs "result" JNull) "name");
                           Subdomain
                             (field (fields_get fs "result" JNull) "subdomain")] |}))
  /\ (is_obj (fields_get fs "result" (JObj [])) = false ->
      run = (Raise AttributeError,
             {| world := snd post;
                stdout := stdout s ++ [AttemptingToCreate project_name] |})).
Proof.
  cbn zeta. intros Hp Hc.
  unfold create_cloudflare_pages_project, bind, lift, requests, print.
  rewrite Hp. cbn [world stdout].
  destruct (send (PostPagesProject cf_api_token cf_account_id payload) (world s))
    as [h w].
  cbn [fst snd] in *. rewrite Hc. cbn [py_get world stdout].
  unfold fields_get.
  destruct (assoc_get String.eqb fs "result") as [res|]; split; intro Ho;
    try discriminate Ho.
  - destruct res; try discriminate Ho.
    cbn [py_get field fields_get world stdout]. now rewrite <- !app_assoc.
  - destruct res; try discriminate Ho; reflexivity.
  - cbn [py_get field assoc_get world stdout]. now rewrite <- !app_assoc.
Qed.

(** X17.  One creation request that cannot connect ends a bulk run: the
    loop stops with the [UnboundLocalError] of the handler and the
    projects after it are never processed. *)
Theorem creation_connection_error_ends_bulk_run
    (vercel_token cf_token cf_account_id : string)
    (project details project_name : json) (payload : payload_t)
    (rest : list json) (s s1 : state World) :
  let announce := ProcessingProject (field project "name") (field project "id") in
  let post := send (PostPagesProject cf_token cf_account_id payload) (world s1) in
  is_obj project = true ->
  truthy (field project "id") = true ->
  get_vercel_project_details World send vercel_token (field project "id")
    {| world := world s; stdout := stdout s ++ [announce] |}
  = (Ok details, s1) ->
  truthy details = true ->
  linked_via_github details = Ok true ->
  prepare_payload details = Ok (Ready project_name payload) ->
  fst post = ConnectionError ->
  process_projects World send vercel_token cf_token cf_account_id (project :: rest) s
  = (Raise UnboundLocalError,
     {| world := snd post;
        stdout := stdout s1 ++ [AttemptingToCreate project_name;
                                ErrorCreating project_name ConnectionFailed] |}).
Proof.
  cbn zeta. intros Ho Hid Hd Ht Hg Hp Hpost.
  destruct project as [| | | | |pfs]; try discriminate Ho.
  cbn [field] in *.
  cbn [process_projects]. unfold bind at 1.
  unfold process_project. cbn [py_get].
  unfold bind at 1, lift at 1. unfold bind at 1, lift at 1.
  unfold bind at 1, print at 1.
  rewrite Hid. cbn [negb].
  unfold bind at 1. rewrite Hd. rewrite Ht.
  unfold bind at 1, lift at 1. rewrite Hg.
  unfold bind at 1.
  unfold create_cloudflare_pages_project.
  unfold bind at 1, lift at 1. rewrite Hp.
  unfold bind at 1, print at 1. unfold bind at 1, requests at 1. cbn [world stdout].
  destruct (send (PostPagesProject cf_token cf_account_id payload) (world s1))
    as [h w].
  cbn [fst snd] in *. subst h. cbn. now rewrite <- !app_assoc.
Qed.

(** X18.  Single-project mode has no eligibility test of its own.  When
    the info cannot be fetched, it says so and finishes after that one
    request; otherwise whatever details come back are handed to
    [create_cloudflare_pages_project], and [main] finishes normally when
    that call returns. *)
Theorem single_project_mode (fuel : nat)
    (vercel_token cf_token cf_account_id project_id : string) (s : state World) :
  let arg := JStr project_id in
  let s0 := {| world := world s;
               stdout := stdout s ++ [FetchingProjects; FetchingSpecific arg] |} in
  let info := send (GetProject vercel_token arg) (world s) in
  let run := main World send fuel vercel_token cf_token cf_account_id
               (Some project_id) s in
  project_id <> "" ->
  (forall e bound,
      classify (fst info) = Failed e bound ->
      run = (Ok tt,
             {| world := snd info;
                stdout := stdout s0 ++ [ErrorFetchingInfo arg e;
                                        CouldNotFetchDetails arg;
                                        MigrationFinished] |}))
  /\ (forall details s1 result s2,
      get_vercel_project_details World send vercel_token arg s0 = (Ok details, s1) ->
      truthy details = true ->
      create_cloudflare_pages_project World send cf_token cf_account_id details s1
      = (Ok result, s2) ->
      run = (Ok tt, {| world := world s2;
                       stdout := stdout s2 ++ [MigrationFinished] |})).
Proof.
  cbn zeta. intro Hne. apply String.eqb_neq in Hne.
  split.
  - intros e bound Hc.
    unfold main. cbn [truthy]. rewrite Hne. cbn [negb].
    unfold bind at 1, print at 1. unfold bind at 1, print at 1.
    cbn [world stdout]. rewrite <- app_assoc. cbn [app].
    unfold bind at 1. unfold get_vercel_project_details.
    unfold bind at 1, requests at 1. cbn [world stdout].
    destruct (send (GetProject vercel_token (JStr project_id)) (world s)) as [h w].
    cbn [fst snd] in *. rewrite Hc. cbn. unfold print. cbn [world stdout].
    now rewrite <- !app_assoc.
  - intros details s1 result s2 Hd Ht Hc.
    unfold main. cbn [truthy]. rewrite Hne. cbn [negb].
    unfold bind at 1, print at 1. unfold bind at 1, print at 1.
    cbn [world stdout]. rewrite <- app_assoc. cbn [app].
    unfold bind at 1. rewrite Hd. rewrite Ht.
    unfold bind at 1. unfold bind at 1. rewrite Hc. reflexivity.
Qed.

End Creator.

Lemma skipped_projects_send_nothing_witness :
  create_cloudflare_pages_project _ scripted "cf" "account" unnamed_detail
    (start created_run)
  = (Ok JNull, {| world := created_run; stdout := [SkippingMissingName] |})
  /\ create_cloudflare_pages_project _ scripted "cf" "account" null_link_detail
       (start created_run)
     = (Ok JNull,
        {| world := created_run;
           stdout := [SkippingNotGithub (JStr "site"); PagesSupportsGitOrUpload;
                      ManualMigrationNeeded] |}).
Proof.
  split.
  - exact (skipped_projects_send_nothing _ scripted "cf" "account" unnamed_detail
             (start created_run) eq_refl eq_refl eq_refl).
  - exact (skipped_projects_send_nothing _ scripted "cf" "account" null_link_detail
             (start created_run) eq_refl eq_refl eq_refl).
Defined.

Lemma creation_result_witness :
  create_cloudflare_pages_project _ scripted "cf" "account" sample_detail
    (start created_without_result)
  = (Ok JNull,
     {| world := [];
        stdout := [AttemptingToCreate (JStr "site"); SuccessfullyCreated JNull;
                   Subdomain JNull] |})
  /\ create_cloudflare_pages_project _ scripted "cf" "account" sample_detail
       (start created_with_null_result)
     = (Raise AttributeError,
        {| world := []; stdout := [AttemptingToCreate (JStr "site")] |}).
Proof.
  split.
  - exact (proj1 (creation_result _ scripted "cf" "account" sample_detail
                    (JStr "site") sample_payload _ _ (start created_without_result)
                    eq_refl eq_refl) eq_refl).
  - exact (proj2 (creation_result _ scripted "cf" "account" sample_detail
                    (JStr "site") sample_payload _ _ (start created_with_null_result)
                    eq_refl eq_refl) eq_refl).
Defined.

Lemma creation_connection_error_ends_bulk_run_witness :
  process_projects _ scripted "vercel" "cf" "account"
    [project "prj_1" "site"; project "prj_2" "blog"] (start creation_unreachable_run)
  = (Raise UnboundLocalError,
     {| world := [ok_response (github_info "blog")];
        stdout := [ProcessingProject (JStr "site") (JStr "prj_1");
                   AttemptingToCreate (JStr "site");
                   ErrorCreating (JStr "site") ConnectionFailed] |}).
Proof.
  exact (creation_connection_error_ends_bulk_run _ scripted "vercel" "cf" "account"
           (project "prj_1" "site") sample_detail (JStr "site") sample_payload
           [project "prj_2" "blog"] (start creation_unreachable_run)
           {| world := skipn 3 creation_unreachable_run;
              stdout := [ProcessingProject (JStr "site") (JStr "prj_1")] |}
           eq_refl eq_refl eq_refl eq_refl eq_refl eq_refl eq_refl).
Defined.

Lemma single_project_mode_witness :
  "prj_1" <> ""
  /\ main _ scripted 0 "vercel" "cf" "account" (Some "prj_1") (start listing_refused)
     = (Ok tt,
        {| world := [];
           stdout := [FetchingProjects; FetchingSpecific (JStr "prj_1");
                      ErrorFetchingInfo (JStr "prj_1") (HTTPError 500);
                      CouldNotFetchDetails (JStr "prj_1"); MigrationFinished] |})
  /\ main _ scripted 0 "vercel" "cf" "account" (Some "prj_1")
       (start null_link_single_run)
     = (Ok tt,
        {| world := [];
           stdout := [FetchingProjects; FetchingSpecific (JStr "prj_1");
                      SkippingNotGithub (JStr "site"); PagesSupportsGitOrUpload;
                      ManualMigrationNeeded; MigrationFinished] |}).
Proof.
  assert (Hne : "prj_1" <> "") by discriminate.
  split; [exact Hne|]. split.
  - exact (proj1 (single_project_mode _ scripted 0 "vercel" "cf" "account" "prj_1"
                    (start listing_refused) Hne) _ _ eq_refl).
  - exact (proj2 (single_project_mode _ scripted 0 "vercel" "cf" "account" "prj_1"
                    (start null_link_single_run) Hne)
             null_link_detail
             {| world := [];
                stdout := [FetchingProjects; FetchingSpecific (JStr "prj_1")] |}
             JNull
             {| world := [];
                stdout := [FetchingProjects; FetchingSpecific (JStr "prj_1");
                           SkippingNotGithub (JStr "site"); PagesSupportsGitOrUpload;
                           ManualMigrationNeeded] |}
             eq_refl eq_refl eq_refl).
Defined.

(** ** How the stages compose *)

(** X19.  A project that passed the test of line 227 is never turned down
    by the test of line 145: on a well-formed detail the only early return
    left is the missing name. *)
Theorem bulk_test_implies_creation_test (detail : json) :
  wf_detail detail = true ->
  linked_via_github detail = Ok true ->
  is_eligible detail = true
  /\ (prepare_payload detail = Ok MissingName
      \/ exists payload,
           prepare_payload detail
           = Ok (Ready (field (field detail "info") "name") payload)).
Proof.
  intros Hwf Hg.
  assert (He : is_eligible detail = true).
  { destruct detail as [| | | | |fs]; try discriminate.
    unfold linked_via_github, is_eligible in *. cbn [py_get rbind field] in *.
    destruct (assoc_get String.eqb fs "info") as [info|] eqn:Einfo.
    - rewrite (fields_get_found _ _ _ (JObj []) Einfo) in Hg.
      rewrite (fields_get_found _ _ _ JNull Einfo).
      destruct info as [| | | | |ifs]; try discriminate.
      cbn [py_get rbind field] in *.
      destruct (assoc_get String.eqb ifs "link") as [l|] eqn:El.
      + rewrite (fields_get_found _ _ _ (JObj []) El) in Hg.
        rewrite (fields_get_found _ _ _ JNull El).
        destruct l; try discriminate. cbn [py_get rbind field] in *.
        now injection Hg.
      + unfold fields_get in Hg. rewrite El in Hg. discriminate.
    - unfold fields_get in Hg. rewrite Einfo in Hg. discriminate. }
  split; [exact He|].
  destruct (has_name detail) eqn:Hn.
  - right. eexists. exact (prepare_payload_ready detail Hwf Hn He).
  - left. exact (prepare_payload_unnamed detail Hwf Hn).
Qed.

Lemma bulk_test_implies_creation_test_witness :
  linked_via_github sample_detail = Ok true
  /\ is_eligible sample_detail = true
  /\ (prepare_payload sample_detail = Ok MissingName
      \/ exists payload,
           prepare_payload sample_detail = Ok (Ready (JStr "site") payload)).
Proof.
  split; [reflexivity|].
  exact (bulk_test_implies_creation_test sample_detail eq_refl eq_refl).
Defined.

Section Composition.
Variable World : Type.
Variable send : request -> World -> http_result * World.

(** X20.  A project whose variables cannot be fetched is migrated all the
    same, without them: when the info of a named, GitHub-linked project
    arrives, the variables request fails and the domains answer follows
    the interface, the details are returned and the payload built from
    them has two empty environment maps. *)
Theorem env_failure_gives_empty_maps (api_token : string) (project_id : json)
    (r : response) (ifs : list (string * json)) (s : state World) :
  let a1 := send (GetProject api_token project_id) (world s) in
  let a2 := send (GetProjectEnv api_token project_id) (snd a1) in
  let a3 := send (GetProjectDomains api_token project_id) (snd a2) in
  classify (fst a1) = Fetched r (JObj ifs) ->
  truthy (fields_get ifs "name" JNull) = true ->
  eq_str (field (fields_get ifs "link" JNull) "type") "github" = true ->
  request_fails (fst a2) = true ->
  facet_conforms "domains" (fst a3) = true ->
  exists details payload,
    fst (get_vercel_project_details World send api_token project_id s) = Ok details
    /\ prepare_payload details = Ok (Ready (fields_get ifs "name" JNull) payload)
    /\ production_environment_variables (deployment_configs payload) = []
    /\ preview_environment_variables (deployment_configs payload) = [].
Proof.
  cbn zeta.
  unfold get_vercel_project_details, bind, requests, request_fails, facet_conforms.
  destruct (send (GetProject api_token project_id) (world s)) as [h1 w1].
  cbn [fst snd world stdout]. intros Hc Hname Hlink. rewrite Hc.
  cbn [world stdout].
  destruct (send (GetProjectEnv api_token project_id) w1) as [h2 w2].
  cbn [fst snd world stdout].
  destruct (classify h2) as [e2 b2|r2 data2]; [|discriminate]. intros _.
  cbn [print ret world stdout].
  destruct (send (GetProjectDomains api_token project_id) w2) as [h3 w3].
  cbn [fst snd world stdout].
  assert (Hready : forall dm,
            exists payload,
              prepare_payload (JObj [("info", JObj ifs); ("env_vars", JArr []);
                                     ("domains", dm)])
              = Ok (Ready (fields_get ifs "name" JNull) payload)
              /\ production_environment_variables (deployment_configs payload) = []
              /\ preview_environment_variables (deployment_configs payload) = []).
  { intro dm. eexists. split.
    - exact (prepare_payload_ready
               (JObj [("info", JObj ifs); ("env_vars", JArr []); ("domains", dm)])
               eq_refl Hname Hlink).
    - split; reflexivity. }
  destruct (classify h3) as [e3 b3|r3 data3].
  - intros _. destruct (Hready (JArr [])) as (payload & Hp & Hm).
    eexists. exists payload. split; [reflexivity|]. split; [exact Hp|exact Hm].
  - destruct data3 as [| | | | |fs3]; try discriminate. intros _.
    destruct (Hready (fields_get fs3 "domains" (JArr []))) as (payload & Hp & Hm).
    eexists. exists payload. split; [reflexivity|]. split; [exact Hp|exact Hm].
Qed.

End Composition.

Lemma env_failure_gives_empty_maps_witness :
  exists details payload,
    fst (get_vercel_project_details _ scripted "token" (JStr "prj_1")
           (start env_endpoint_down)) = Ok details
    /\ prepare_payload details = Ok (Ready (JStr "site") payload)
    /\ production_environment_variables (deployment_configs payload) = []
    /\ preview_environment_variables (deployment_configs payload) = [].
Proof.
  exact (env_failure_gives_empty_maps _ scripted "token" (JStr "prj_1") _ _
           (start env_endpoint_down) eq_refl eq_refl eq_refl eq_refl eq_refl).
Defined.
